(** * agent-swarm-simple: a shallow embedding of the planning / approval /
    building demo workflow and of the quick-start script.

    The Python sources are [simple_agent_framework.py] and [quickstart.py].
    Asynchronous functions are embedded as computations in a monad of
    world-passing functions that may raise; the world holds everything the
    program can observe or change outside its own variables: the importable
    packages, the process environment, the dashboard service behind the
    network, the requests sent so far, the lines printed and the time slept. *)

From stdpp Require Import gmap strings list pretty.

Open Scope string_scope.
Open Scope list_scope.

(** ** Python runtime *)

Inductive HttpFailure :=
| ConnectionRefused
| Timeout
| MalformedResponse.

Inductive Exn :=
| KeyError (key : string)
| AttributeError (what : string)
| RuntimeError (what : string)
| ValueError (what : string)
| ImportError (module_name : string)
| ClientError (f : HttpFailure)
| GraphRecursionError
| SystemExit (code : nat).

Inductive Method := GET | POST.

Record Request := {
  method : Method;
  url : string;
  json : list (string * string)
}.

Inductive HttpOutcome :=
| Responded (status : nat)
| Failed (f : HttpFailure).

(** The dashboard service is whatever answers the requests: its answer may
    depend on the request and on everything it was sent before. *)
Definition Collaborator := list Request -> Request -> HttpOutcome.

Record World := {
  packages : gset string;
  environ : gmap string string;
  dotenv_file : gmap string string;
  network : Collaborator;
  requests : list Request;
  stdout : list string;
  slept : nat
}.

Inductive Res (A : Type) :=
| Ok (a : A)
| Raise (e : Exn).
Arguments Ok {A} a.
Arguments Raise {A} e.

Definition M (A : Type) : Type := World -> Res A * World.

Definition ret {A} (a : A) : M A := fun w => (Ok a, w).

Definition bind {A B} (m : M A) (k : A -> M B) : M B :=
  fun w =>
    match m w with
    | (Ok a, w') => k a w'
    | (Raise e, w') => (Raise e, w')
    end.

Definition raise {A} (e : Exn) : M A := fun w => (Raise e, w).

Declare Scope py_scope.
Delimit Scope py_scope with py.
Notation "x <- c ;; k" := (bind c (fun x => k))
  (at level 100, c at next level, right associativity) : py_scope.
Notation "c ;; k" := (bind c (fun _ => k))
  (at level 100, right associativity) : py_scope.
Open Scope py_scope.

(** [try: body / except <classes>: handler].  A bare [except:] handles
    every exception. *)
Definition try_except {A} (body : M A) (handles : Exn -> bool)
    (handler : Exn -> M A) : M A :=
  fun w =>
    match body w with
    | (Ok a, w') => (Ok a, w')
    | (Raise e, w') => if handles e then handler e w' else (Raise e, w')
    end.

Definition bare_except (e : Exn) : bool := true.

Definition except_ImportError (e : Exn) : bool :=
  match e with
  | ImportError _ => true
  | _ => false
  end.

(** [for x in xs: body], with the variables the body assigns carried in [s]. *)
Fixpoint for_each {A S} (xs : list A) (body : A -> S -> M S) (s : S) : M S :=
  match xs with
  | [] => ret s
  | x :: xs' => s' <- body x s ;; for_each xs' body s'
  end.

Definition print (line : string) : M unit :=
  fun w =>
    (Ok (),
     {| packages := packages w; environ := environ w;
        dotenv_file := dotenv_file w; network := network w;
        requests := requests w; stdout := stdout w ++ [line];
        slept := slept w |}).

(** [await asyncio.sleep(seconds)] *)
Definition sleep (seconds : nat) : M unit :=
  fun w =>
    (Ok (),
     {| packages := packages w; environ := environ w;
        dotenv_file := dotenv_file w; network := network w;
        requests := requests w; stdout := stdout w;
        slept := slept w + seconds |}).

(** [import name]: raises [ImportError] when the package is not installed. *)
Definition import_module (name : string) : M unit :=
  fun w =>
    if decide (name ∈ packages w) then (Ok (), w)
    else (Raise (ImportError name), w).

(** [sys.exit(code)] *)
Definition sys_exit {A} (code : nat) : M A := raise (SystemExit code).

(** [os.getenv(key)] and [os.getenv(key, default)] *)
Definition getenv (key : string) : M (option string) :=
  fun w => (Ok (environ w !! key), w).

Definition getenv_default (key dflt : string) : M string :=
  fun w => (Ok (default dflt (environ w !! key)), w).

(** [load_dotenv()]: variables of the [.env] file are added to the
    environment; a variable that is already set keeps its value. *)
Definition load_dotenv : M bool :=
  fun w =>
    (Ok true,
     {| packages := packages w; environ := environ w ∪ dotenv_file w;
        dotenv_file := dotenv_file w; network := network w;
        requests := requests w; stdout := stdout w;
        slept := slept w |}).

(** [d[key]] on a dict with string keys. *)
Definition getitem {V} (d : gmap string V) (key : string) : M V :=
  match d !! key with
  | Some v => ret v
  | None => raise (KeyError key)
  end.

(** A dict whose iteration order matters is kept as the list of its entries
    in insertion order. *)
Fixpoint odict_get {V} (d : list (string * V)) (key : string) : option V :=
  match d with
  | [] => None
  | (k, v) :: d' => if decide (k = key) then Some v else odict_get d' key
  end.

Definition odict_getitem {V} (d : list (string * V)) (key : string) : M V :=
  match odict_get d key with
  | Some v => ret v
  | None => raise (KeyError key)
  end.

(** [for v in d.values(): body], where the body mutates the object [v]. *)
Fixpoint for_values {V} (d : list (string * V)) (body : V -> M V)
    : M (list (string * V)) :=
  match d with
  | [] => ret []
  | (k, v) :: d' =>
      v' <- body v ;;
      d'' <- for_values d' body ;;
      ret ((k, v') :: d'')
  end.

(** ** aiohttp *)

Record ClientSession := { closed : bool }.

Definition new_ClientSession : ClientSession := {| closed := false |}.

(** One HTTP exchange: the request is sent, and the collaborator either
    answers with a status, which is returned whatever it is, or the call
    raises. *)
Definition http_request (req : Request) : M nat :=
  fun w =>
    let w' :=
      {| packages := packages w; environ := environ w;
         dotenv_file := dotenv_file w; network := network w;
         requests := requests w ++ [req]; stdout := stdout w;
         slept := slept w |} in
    match network w (requests w) req with
    | Responded status => (Ok status, w')
    | Failed f => (Raise (ClientError f), w')
    end.

Definition session_request (s : ClientSession) (req : Request) : M nat :=
  if closed s then raise (RuntimeError "Session is closed")
  else http_request req.

Definition session_post (s : ClientSession) (u : string)
    (body : list (string * string)) : M nat :=
  session_request s {| method := POST; url := u; json := body |}.

Definition session_get (s : ClientSession) (u : string) : M nat :=
  session_request s {| method := GET; url := u; json := [] |}.

Definition session_close (s : ClientSession) : M ClientSession :=
  ret {| closed := true |}.

(** ** simple_agent_framework.py: state *)

Inductive Phase := planning | approval | building | complete.

Record Task := {
  task_id : string;
  task_title : string;
  task_assignee : string
}.

(** The plan is a dict: [{}] at the start of a run, then
    [{"tasks": ..., "total_tasks": ...}]. *)
Record Plan := {
  tasks : option (list Task);
  total_tasks : option nat
}.

Definition empty_plan : Plan := {| tasks := None; total_tasks := None |}.

(** A backlog item is a dict from field names to strings. *)
Record IterationState := {
  phase : Phase;
  backlog : list (gmap string string);
  plan : Plan;
  completed_tasks : list string;
  messages : list string
}.

(** What a node returns: the keys of the state it assigns. *)
Record Update := {
  u_phase : option Phase;
  u_plan : option Plan;
  u_completed_tasks : option (list string);
  u_messages : option (list string)
}.

(** [state["plan"]["tasks"]] *)
Definition plan_tasks (p : Plan) : M (list Task) :=
  match tasks p with
  | Some ts => ret ts
  | None => raise (KeyError "tasks")
  end.

Definition nl : string :=
  String (Ascii.Ascii false true false true false false false false) EmptyString.

(** ** simple_agent_framework.py: Agent *)

Record Agent := {
  name : string;
  role : string;
  session : option ClientSession
}.

Definition Agent_init (n r : string) : Agent :=
  {| name := n; role := r; session := None |}.

(** [self.session.post(...)]: the attribute access fails on [None]. *)
Definition Agent_session_post (self : Agent) (u : string)
    (body : list (string * string)) : M nat :=
  match session self with
  | Some s => session_post s u body
  | None => raise (AttributeError "'NoneType' object has no attribute 'post'")
  end.

Section Framework.

(** The module global read from the environment when the module is loaded. *)
Variable COORDINATOR_URL : string.

Definition Agent_setup (self : Agent) : M Agent :=
  let self :=
    {| name := name self; role := role self;
       session := Some new_ClientSession |} in
  try_except
    (Agent_session_post self (COORDINATOR_URL +:+ "/api/agent/register")
       [("id", name self); ("name", name self); ("role", role self)] ;;
     ret ())
    bare_except
    (fun _ =>
       print ("Warning: Could not register " +:+ name self
              +:+ " with dashboard")) ;;
  ret self.

Definition Agent_update_dashboard (self : Agent) (status message : string)
    : M unit :=
  try_except
    (Agent_session_post self (COORDINATOR_URL +:+ "/api/agent/update")
       [("agentId", name self); ("status", status); ("activity", message)] ;;
     Agent_session_post self (COORDINATOR_URL +:+ "/api/activity/post")
       [("agent", name self); ("message", message)] ;;
     ret ())
    bare_except
    (fun _ => ret ()).

Definition Agent_cleanup (self : Agent) : M Agent :=
  match session self with
  | Some s =>
      s' <- session_close s ;;
      ret {| name := name self; role := role self; session := Some s' |}
  | None => ret self
  end.

(** ** simple_agent_framework.py: the three nodes *)

(** The three dicts appended for one backlog item. *)
Definition item_tasks (feature_id title1 title2 title3 : string) : list Task :=
  [ {| task_id := feature_id +:+ "-backend";
       task_title := "Backend: " +:+ title1;
       task_assignee := "backend" |};
    {| task_id := feature_id +:+ "-frontend";
       task_title := "Frontend: " +:+ title2;
       task_assignee := "frontend" |};
    {| task_id := feature_id +:+ "-tests";
       task_title := "Tests: " +:+ title3;
       task_assignee := "qa" |} ].

Definition planning_item (item : gmap string string) (acc : list Task)
    : M (list Task) :=
  feature_id <- getitem item "id" ;;
  title1 <- getitem item "title" ;;
  title2 <- getitem item "title" ;;
  title3 <- getitem item "title" ;;
  ret (acc ++ item_tasks feature_id title1 title2 title3).

Definition planning_node (state : IterationState) : M Update :=
  print (nl +:+ "🎯 PLANNING PHASE") ;;
  ts <- for_each (backlog state) planning_item [] ;;
  let p := {| tasks := Some ts; total_tasks := Some (length ts) |} in
  print ("📋 Created plan with " +:+ pretty (length ts) +:+ " tasks") ;;
  ret {| u_phase := Some approval;
         u_plan := Some p;
         u_completed_tasks := None;
         u_messages :=
           Some (messages state
                 ++ ["Created plan with " +:+ pretty (length ts) +:+ " tasks"]) |}.

Definition approval_node (state : IterationState) : M Update :=
  print (nl +:+ "✅ APPROVAL PHASE") ;;
  print "🤔 Waiting for approval... (auto-approving in 3 seconds)" ;;
  sleep 3 ;;
  print "✅ Plan approved!" ;;
  ret {| u_phase := Some building;
         u_plan := None;
         u_completed_tasks := None;
         u_messages :=
           Some (messages state ++ ["Plan approved by product owner"]) |}.

Definition building_task (agent : Agent) (task : Task)
    (completed : list string) : M (list string) :=
  Agent_update_dashboard agent "busy" ("Working on: " +:+ task_title task) ;;
  sleep 1 ;;
  print ("  ✓ Completed: " +:+ task_title task) ;;
  let completed := completed ++ [task_id task] in
  Agent_update_dashboard agent "idle" ("Completed: " +:+ task_title task) ;;
  ret completed.

Definition building_type (agents : list (string * Agent)) (ts : list Task)
    (task_type : string) (completed : list string) : M (list string) :=
  let type_tasks := filter (fun t => task_assignee t = task_type) ts in
  match type_tasks with
  | [] => ret completed
  | _ :: _ =>
      agent <- odict_getitem agents task_type ;;
      print (nl +:+ "👤 " +:+ name agent +:+ " working on "
             +:+ pretty (length type_tasks) +:+ " tasks...") ;;
      for_each type_tasks (building_task agent) completed
  end.

Definition building_node (state : IterationState) : M Update :=
  print (nl +:+ "🔨 BUILDING PHASE") ;;
  let agents :=
    [ ("backend", Agent_init "Backend SWE" "engineer");
      ("frontend", Agent_init "Frontend SWE" "engineer");
      ("qa", Agent_init "QA Engineer" "tester") ] in
  agents <- for_values agents Agent_setup ;;
  let completed := [] in
  ts <- plan_tasks (plan state) ;;
  completed <- for_each ["backend"; "frontend"; "qa"]
                 (building_type agents ts) completed ;;
  _ <- for_values agents Agent_cleanup ;;
  ret {| u_phase := Some complete;
         u_plan := None;
         u_completed_tasks := Some completed;
         u_messages :=
           Some (messages state
                 ++ ["Completed " +:+ pretty (length completed) +:+ " tasks"]) |}.

(** ** langgraph: a state graph over [IterationState]

    A node returns the keys it assigns and the graph overwrites them in the
    state; a run follows the edges from the entry point until [END], for at
    most [recursion_limit] steps. *)

Definition END : string := "__end__".

Record StateGraph := {
  nodes : list (string * (IterationState -> M Update));
  entry_point : option string;
  edges : list (string * string)
}.

Definition StateGraph_new : StateGraph :=
  {| nodes := []; entry_point := None; edges := [] |}.

Definition add_node (n : string) (f : IterationState -> M Update)
    (g : StateGraph) : StateGraph :=
  {| nodes := nodes g ++ [(n, f)]; entry_point := entry_point g;
     edges := edges g |}.

Definition set_entry_point (n : string) (g : StateGraph) : StateGraph :=
  {| nodes := nodes g; entry_point := Some n; edges := edges g |}.

Definition add_edge (a b : string) (g : StateGraph) : StateGraph :=
  {| nodes := nodes g; entry_point := entry_point g;
     edges := edges g ++ [(a, b)] |}.

Definition apply_update (s : IterationState) (u : Update) : IterationState :=
  {| phase := default (phase s) (u_phase u);
     backlog := backlog s;
     plan := default (plan s) (u_plan u);
     completed_tasks := default (completed_tasks s) (u_completed_tasks u);
     messages := default (messages s) (u_messages u) |}.

Definition recursion_limit : nat := 25.

(** The states after each step, from the node [current] on. *)
Fixpoint run_from (fuel : nat) (g : StateGraph) (current : string)
    (s : IterationState) : M (list IterationState) :=
  if decide (current = END) then ret []
  else
    match fuel with
    | 0 => raise GraphRecursionError
    | S fuel' =>
        match odict_get (nodes g) current, odict_get (edges g) current with
        | Some node, Some next =>
            u <- node s ;;
            let s' := apply_update s u in
            rest <- run_from fuel' g next s' ;;
            ret (s' :: rest)
        | _, _ => raise (ValueError ("no node or edge for " +:+ current))
        end
    end.

(** [astream(input, stream_mode="values")]: the input state, then the state
    after each step. *)
Definition astream (g : StateGraph) (input : IterationState)
    : M (list IterationState) :=
  match entry_point g with
  | Some n =>
      rest <- run_from recursion_limit g n input ;;
      ret (input :: rest)
  | None => raise (ValueError "graph has no entry point")
  end.

(** [ainvoke(input)]: the last state of the stream. *)
Definition ainvoke (g : StateGraph) (input : IterationState)
    : M IterationState :=
  states <- astream g input ;;
  ret (List.last states input).

(** ** simple_agent_framework.py: workflow and runner *)

Definition create_workflow : StateGraph :=
  let workflow := StateGraph_new in
  let workflow := add_node "planning" planning_node workflow in
  let workflow := add_node "approval" approval_node workflow in
  let workflow := add_node "building" building_node workflow in
  let workflow := set_entry_point "planning" workflow in
  let workflow := add_edge "planning" "approval" workflow in
  let workflow := add_edge "approval" "building" workflow in
  let workflow := add_edge "building" END workflow in
  workflow.

Definition initial_state (backlog_items : list (gmap string string))
    : IterationState :=
  {| phase := planning;
     backlog := backlog_items;
     plan := empty_plan;
     completed_tasks := [];
     messages := [] |}.

Definition run_iteration (backlog_items : list (gmap string string))
    : M unit :=
  print "🚀 Starting iteration..." ;;
  let workflow := create_workflow in
  final_state <- ainvoke workflow (initial_state backlog_items) ;;
  print (nl +:+ "✨ ITERATION COMPLETE!") ;;
  print ("Completed tasks: "
         +:+ pretty (length (completed_tasks final_state))) ;;
  print (nl +:+ "Iteration log:") ;;
  for_each (messages final_state)
    (fun msg (_ : unit) => print ("  • " +:+ msg)) ().

End Framework.

(** Loading the module [simple_agent_framework]: its imports, then
    [load_dotenv()], then the module globals.  The result is
    [COORDINATOR_URL]. *)
Definition import_simple_agent_framework : M string :=
  import_module "aiohttp" ;;
  import_module "langgraph" ;;
  import_module "dotenv" ;;
  load_dotenv ;;
  coordinator_url <- getenv_default "COORDINATOR_URL" "http://localhost:8787" ;;
  _ <- getenv "OPENAI_API_KEY" ;;
  ret coordinator_url.

Definition example_backlog : list (gmap string string) :=
  [ {[ "id" := "FEAT-001";
       "title" := "User Login API";
       "description" := "Create login endpoint with JWT" ]};
    {[ "id" := "FEAT-002";
       "title" := "Dashboard UI";
       "description" := "Create main dashboard page" ]} ].

(** [main()] of simple_agent_framework.py *)
Definition main (COORDINATOR_URL : string) : M unit :=
  print "🔗 Testing dashboard connection..." ;;
  try_except
    (status <- session_get new_ClientSession
                 (COORDINATOR_URL +:+ "/api/iteration/status") ;;
     if decide (status = 200) then print "✅ Dashboard connected!"
     else print "⚠️  Dashboard not responding (will continue anyway)")
    bare_except
    (fun _ => print "⚠️  Dashboard not available (will continue anyway)") ;;
  run_iteration COORDINATOR_URL example_backlog.

(** ** quickstart.py *)

(** [s * n] on strings *)
Fixpoint str_mul (s : string) (n : nat) : string :=
  match n with
  | 0 => ""
  | S n' => s +:+ str_mul s n'
  end.

(** The check for required packages at the top of the script. *)
Definition quickstart_imports : M unit :=
  try_except
    (import_module "langgraph" ;;
     import_module "aiohttp" ;;
     import_module "dotenv")
    except_ImportError
    (fun e =>
       print "❌ Missing required packages!" ;;
       print "Please run: pip install langgraph aiohttp python-dotenv" ;;
       sys_exit 1).

Definition test_backlog : list (gmap string string) :=
  [ {[ "id" := "TEST-001";
       "title" := "Hello World API";
       "description" := "Simple test endpoint" ]} ].

Definition test_setup : M unit :=
  print ("🔍 Checking your setup..." +:+ nl) ;;
  coordinator_url <- getenv "COORDINATOR_URL" ;;
  coordinator_url <-
    match coordinator_url with
    | None | Some "" =>
        print "⚠️  COORDINATOR_URL not set in .env file" ;;
        print "   Using default: http://localhost:8787" ;;
        ret "http://localhost:8787"
    | Some u =>
        print ("✅ Coordinator URL: " +:+ u) ;;
        ret u
    end ;;
  print (nl +:+ "🌐 Testing dashboard connection...") ;;
  dashboard_available <-
    try_except
      (status <- session_get new_ClientSession
                   (coordinator_url +:+ "/dashboard") ;;
       if decide (status = 200) then
         print "✅ Dashboard is running!" ;;
         print ("   View at: " +:+ coordinator_url +:+ "/dashboard") ;;
         ret true
       else ret false)
      bare_except
      (fun _ =>
         print "⚠️  Dashboard not accessible (that's OK for testing)" ;;
         ret false) ;;
  print (nl +:+ "🚀 Running test workflow...") ;;
  print (str_mul "-" 50) ;;
  COORDINATOR_URL <- import_simple_agent_framework ;;
  run_iteration COORDINATOR_URL test_backlog ;;
  print (nl +:+ str_mul "=" 50) ;;
  print "✅ Setup test complete!" ;;
  (if dashboard_available : bool then
     print (nl +:+ "👉 Check your dashboard at: " +:+ coordinator_url
            +:+ "/dashboard") ;;
     print "   You should see agent activity there!"
   else
     print (nl +:+ "💡 To see the web dashboard:") ;;
     print "   1. Deploy the Cloudflare Worker first" ;;
     print "   2. Update COORDINATOR_URL in your .env file" ;;
     print "   3. Run this test again") ;;
  print (nl +:+ "🎉 Your agent swarm is working!").

(** The script, run as [__main__]. *)
Definition quickstart : M unit :=
  quickstart_imports ;;
  load_dotenv ;;
  print "🤖 Agent Swarm Quick Start" ;;
  print (str_mul "=" 50) ;;
  test_setup.

(** The interpreter running a script: [SystemExit] gives its code as exit
    status, any other uncaught exception status 1, a normal end status 0. *)
Definition python (script : M unit) (w : World) : nat * World :=
  match script w with
  | (Ok _, w') => (0, w')
  | (Raise (SystemExit code), w') => (code, w')
  | (Raise _, w') => (1, w')
  end.

(** * Vocabulary of the properties *)

(** ** Computations *)

(** A computation that returns [a] from every world. *)
Definition always_returns {A} (m : M A) (a : A) : Prop :=
  forall w, exists w', m w = (Ok a, w').

(** ** Backlogs and what each stage assigns *)

(** The fields of an item that planning reads. *)
Definition wf_item (item : gmap string string) : Prop :=
  is_Some (item !! "id") /\ is_Some (item !! "title").

(** A backlog whose items all have an id and a title. *)
Definition wf_backlog (b : list (gmap string string)) : Prop :=
  Forall wf_item b.

(** Closed form of one round of the planning loop. *)
Definition tasks_of_item (item : gmap string string) : list Task :=
  match item !! "id", item !! "title" with
  | Some feature_id, Some title => item_tasks feature_id title title title
  | _, _ => []
  end.

(** Closed form of the whole loop. *)
Definition tasks_of_backlog (b : list (gmap string string)) : list Task :=
  concat (tasks_of_item <$> b).

(** What [planning_node] returns on a well-formed backlog. *)
Definition planned (st : IterationState) : Update :=
  let ts := tasks_of_backlog (backlog st) in
  {| u_phase := Some approval;
     u_plan := Some {| tasks := Some ts; total_tasks := Some (length ts) |};
     u_completed_tasks := None;
     u_messages :=
       Some (messages st
             ++ ["Created plan with " +:+ pretty (length ts) +:+ " tasks"]) |}.

(** An agent after [setup], and after [cleanup]. *)
Definition registered (self : Agent) : Agent :=
  {| name := name self; role := role self; session := Some new_ClientSession |}.

Definition cleaned (self : Agent) : Agent :=
  {| name := name self; role := role self;
     session := (fun _ => {| closed := true |}) <$> session self |}.

(** The tasks of one assignee, in plan order. *)
Definition tasks_for (ty : string) (ts : list Task) : list Task :=
  filter (fun t => task_assignee t = ty) ts.

(** The ids in the order the building stage completes them. *)
Definition completed_of (ts : list Task) : list string :=
  (task_id <$> tasks_for "backend" ts)
  ++ (task_id <$> tasks_for "frontend" ts)
  ++ (task_id <$> tasks_for "qa" ts).

(** What [building_node] returns on a state whose plan has the tasks [ts]. *)
Definition built (st : IterationState) (ts : list Task) : Update :=
  {| u_phase := Some complete;
     u_plan := None;
     u_completed_tasks := Some (completed_of ts);
     u_messages :=
       Some (messages st
             ++ ["Completed " +:+ pretty (length (completed_of ts))
                 +:+ " tasks"]) |}.

(** What [approval_node] returns. *)
Definition approved (st : IterationState) : Update :=
  {| u_phase := Some building;
     u_plan := None;
     u_completed_tasks := None;
     u_messages := Some (messages st ++ ["Plan approved by product owner"]) |}.

(** The states of a run on the backlog [b]. *)
Definition after_planning (b : list (gmap string string)) : IterationState :=
  apply_update (initial_state b) (planned (initial_state b)).

Definition after_approval (b : list (gmap string string)) : IterationState :=
  apply_update (after_planning b) (approved (after_planning b)).

Definition after_building (b : list (gmap string string)) : IterationState :=
  apply_update (after_approval b)
    (built (after_approval b) (tasks_of_backlog b)).

(** A task of one of the three roles the building stage serves. *)
Definition known_assignee (t : Task) : Prop :=
  task_assignee t ∈ ["backend"; "frontend"; "qa"].

(** ** Worlds *)

(** A dashboard that answers every request, and one that is not there. *)
Definition dashboard_up : Collaborator := fun _ _ => Responded 200.

Definition dashboard_down : Collaborator :=
  fun _ _ => Failed ConnectionRefused.

(** The packages the two scripts import. *)
Definition all_packages : gset string := {[ "langgraph"; "aiohttp"; "dotenv" ]}.

(** A world in which nothing has happened yet. *)
Definition fresh_world (installed : gset string) (c : Collaborator) : World :=
  {| packages := installed; environ := ∅; dotenv_file := ∅; network := c;
     requests := []; stdout := []; slept := 0 |}.

(** A collaborator that answers every request / that fails every request. *)
Definition reachable (c : Collaborator) : Prop :=
  forall sent req, exists status, c sent req = Responded status.

Definition unreachable (c : Collaborator) : Prop :=
  forall sent req, exists f, c sent req = Failed f.

(** The world after the dependency check has failed: two lines printed,
    nothing else done. *)
Definition after_missing_dependency (w : World) : World :=
  {| packages := packages w; environ := environ w;
     dotenv_file := dotenv_file w; network := network w;
     requests := requests w;
     stdout := stdout w
               ++ ["❌ Missing required packages!";
                   "Please run: pip install langgraph aiohttp python-dotenv"];
     slept := slept w |}.

(** The plan a call yields, or the exception it raises. *)
Definition plan_result (r : Res Update * World) : Res (option Plan) :=
  match r.1 with
  | Ok u => Ok (u_plan u)
  | Raise e => Raise e
  end.

(** A plan whose [total_tasks] is the length of its [tasks]. *)
Definition plan_consistent (p : Plan) : Prop :=
  exists ts, tasks p = Some ts /\ total_tasks p = Some (length ts).

(** ** Accounting for what a computation does to the world *)

(** From every world that satisfies [inv], the computation returns [a],
    keeps [inv], and changes the world by [Q k]: [k] counts what is being
    accounted (seconds slept, requests sent). *)
Definition costs {A} (inv : World -> Prop) (Q : nat -> World -> World -> Prop)
    (m : M A) (a : A) (k : nat) : Prop :=
  forall w, inv w -> exists w', m w = (Ok a, w') /\ inv w' /\ Q k w w'.

Definition sleeps (t : nat) (w w' : World) : Prop :=
  slept w' = slept w + t.

Definition talks (k : nat) (w w' : World) : Prop :=
  length (requests w') = length (requests w) + k.

Definition any_world (w : World) : Prop := True.

(** Whatever the outcome, the world after the computation is related to the
    world before by [R]. *)
Definition keeps {A} (R : World -> World -> Prop) (m : M A) : Prop :=
  forall w, R w (m w).2.

(** The three endpoints of the dashboard service the agents post to. *)
Definition dashboard_post (coordinator_url : string) (req : Request) : Prop :=
  method req = POST /\
  url req ∈ [ coordinator_url +:+ "/api/agent/register";
              coordinator_url +:+ "/api/agent/update";
              coordinator_url +:+ "/api/activity/post" ].

(** [w'] is [w] after some requests that satisfy [P], some output and some
    sleep; packages, environment, [.env] file and network are the same. *)
Definition extends_with (P : Request -> Prop) (w w' : World) : Prop :=
  packages w' = packages w /\ environ w' = environ w /\
  dotenv_file w' = dotenv_file w /\ network w' = network w /\
  (exists rs, requests w' = requests w ++ rs /\ Forall P rs) /\
  (exists out, stdout w' = stdout w ++ out) /\
  slept w <= slept w'.

(** From every world that satisfies [inv], the computation returns some
    value and keeps [inv]. *)
Definition succeeds {A} (inv : World -> Prop) (m : M A) : Prop :=
  forall w, inv w -> exists a w', m w = (Ok a, w') /\ inv w'.

(** The packages the quick-start script needs are installed. *)
Definition dependencies_installed (w : World) : Prop :=
  "langgraph" ∈ packages w /\ "aiohttp" ∈ packages w /\ "dotenv" ∈ packages w.

(** The last character of a string. *)
Fixpoint str_last (s : string) : option Ascii.ascii :=
  match s with
  | EmptyString => None
  | String c EmptyString => Some c
  | String _ s' => str_last s'
  end.

(** The lines [run_iteration] prints after the workflow has returned. *)
Definition iteration_summary (final : IterationState) : list string :=
  [ nl +:+ "✨ ITERATION COMPLETE!";
    "Completed tasks: " +:+ pretty (length (completed_tasks final));
    nl +:+ "Iteration log:" ]
  ++ ((fun msg => "  • " +:+ msg) <$> messages final).

(** The key whose lookup fails first on an item that planning cannot use. *)
Definition missing_key (item : gmap string string) : string :=
  match item !! "id" with
  | Some _ => "title"
  | None => "id"
  end.

(** The ids of the items of a backlog, in order. *)
Definition feature_ids (b : list (gmap string string)) : list string :=
  omap (fun item => item !! "id") b.

(** The three requests of the agents, as the methods build them. *)
Definition register_request (coordinator_url : string) (a : Agent) : Request :=
  {| method := POST;
     url := coordinator_url +:+ "/api/agent/register";
     json := [("id", name a); ("name", name a); ("role", role a)] |}.

Definition update_request (coordinator_url : string) (a : Agent)
    (status message : string) : Request :=
  {| method := POST;
     url := coordinator_url +:+ "/api/agent/update";
     json := [("agentId", name a); ("status", status);
              ("activity", message)] |}.

Definition activity_request (coordinator_url : string) (a : Agent)
    (message : string) : Request :=
  {| method := POST;
     url := coordinator_url +:+ "/api/activity/post";
     json := [("agent", name a); ("message", message)] |}.

(** The liveness probe of [main], the line [main] prints for its outcome,
    and the world once the probe is over. *)
Definition status_probe (coordinator_url : string) : Request :=
  {| method := GET;
     url := coordinator_url +:+ "/api/iteration/status";
     json := [] |}.

Definition status_line (o : HttpOutcome) : string :=
  match o with
  | Responded status =>
      if decide (status = 200) then "✅ Dashboard connected!"
      else "⚠️  Dashboard not responding (will continue anyway)"
  | Failed _ => "⚠️  Dashboard not available (will continue anyway)"
  end.

Definition after_status_probe (coordinator_url : string) (w : World) : World :=
  {| packages := packages w; environ := environ w;
     dotenv_file := dotenv_file w; network := network w;
     requests := requests w ++ [status_probe coordinator_url];
     stdout := stdout w
               ++ [ "🔗 Testing dashboard connection...";
                    status_line (network w (requests w)
                                   (status_probe coordinator_url)) ];
     slept := slept w |}.

(** * Properties *)

(** ** Running computations *)

Lemma bind_ok {A B} (m : M A) (k : A -> M B) w a w' :
  m w = (Ok a, w') -> bind m k w = k a w'.
Proof. intros H. unfold bind. by rewrite H. Qed.

Lemma bind_raise {A B} (m : M A) (k : A -> M B) w e w' :
  m w = (Raise e, w') -> bind m k w = (Raise e, w').
Proof. intros H. unfold bind. by rewrite H. Qed.

Lemma try_except_ok {A} (body : M A) handles handler w a w' :
  body w = (Ok a, w') -> try_except body handles handler w = (Ok a, w').
Proof. intros H. unfold try_except. by rewrite H. Qed.

Lemma always_returns_ret {A} (a : A) : always_returns (ret a) a.
Proof. intros w. by exists w. Qed.

Lemma always_returns_bind {A B} (m : M A) (k : A -> M B) a b :
  always_returns m a -> always_returns (k a) b ->
  always_returns (bind m k) b.
Proof.
  intros Hm Hk w.
  destruct (Hm w) as [w1 H1]. destruct (Hk w1) as [w2 H2].
  exists w2. by rewrite (bind_ok _ _ _ _ _ H1).
Qed.

Lemma always_returns_print line : always_returns (print line) ().
Proof. intros w. eexists. reflexivity. Qed.

Lemma always_returns_sleep n : always_returns (sleep n) ().
Proof. intros w. eexists. reflexivity. Qed.

Lemma always_returns_for_values {V} (body : V -> M V) (f : V -> V) d :
  (forall v, always_returns (body v) (f v)) ->
  always_returns (for_values d body) (prod_map id f <$> d).
Proof.
  intros Hbody. induction d as [|[k v] d IH]; simpl.
  - apply always_returns_ret.
  - eapply always_returns_bind; [apply Hbody|].
    eapply always_returns_bind; [apply IH|].
    apply always_returns_ret.
Qed.

Lemma always_returns_for_each {A S} (body : A -> S -> M S) (f : S -> A -> S)
    xs s :
  (forall x s, always_returns (body x s) (f s x)) ->
  always_returns (for_each xs body s) (foldl f s xs).
Proof.
  intros Hbody. revert s. induction xs as [|x xs IH]; intros s; simpl.
  - apply always_returns_ret.
  - eapply always_returns_bind; [apply Hbody|]. apply IH.
Qed.

Create HintDb returns.
#[local] Hint Resolve always_returns_ret always_returns_print
  always_returns_sleep : returns.

(** Walks down a chain of binds whose steps all return. *)
Ltac returns_chain :=
  repeat (eapply always_returns_bind; [solve [eauto with returns]|]);
  eauto with returns.

(** ** Planning *)

Lemma planning_item_wf item acc w :
  wf_item item ->
  planning_item item acc w = (Ok (acc ++ tasks_of_item item), w).
Proof.
  intros [[i Hi] [t Ht]].
  unfold planning_item, tasks_of_item, getitem, bind.
  rewrite Hi, Ht. reflexivity.
Qed.

Lemma planning_loop_wf b acc w :
  wf_backlog b ->
  for_each b planning_item acc w = (Ok (acc ++ tasks_of_backlog b), w).
Proof.
  intros Hwf. revert acc.
  induction Hwf as [|item b Hitem _ IH]; intros acc; simpl.
  - unfold ret, tasks_of_backlog. simpl. by rewrite app_nil_r.
  - rewrite (bind_ok _ _ _ _ _ (planning_item_wf item acc w Hitem)).
    rewrite IH. unfold tasks_of_backlog. simpl. by rewrite <- app_assoc.
Qed.

(** The first item without an id or a title stops the loop with a
    [KeyError]. *)
Lemma planning_item_ill item acc w :
  ~ wf_item item -> exists k, planning_item item acc w = (Raise (KeyError k), w).
Proof.
  intros Hill. unfold planning_item, getitem, bind, wf_item in *.
  destruct (item !! "id") as [i|] eqn:Hi; simpl.
  - destruct (item !! "title") as [t|] eqn:Ht; simpl.
    + exfalso. apply Hill. eauto.
    + by exists "title".
  - by exists "id".
Qed.

Lemma planning_node_wf st w :
  wf_backlog (backlog st) ->
  exists w', planning_node st w = (Ok (planned st), w').
Proof.
  intros Hwf. unfold planning_node.
  destruct (always_returns_print (nl +:+ "🎯 PLANNING PHASE") w) as [w1 H1].
  rewrite (bind_ok _ _ _ _ _ H1).
  rewrite (bind_ok _ _ _ _ _ (planning_loop_wf _ [] w1 Hwf)).
  simpl. eexists. reflexivity.
Qed.

Lemma length_tasks_of_backlog b :
  wf_backlog b -> length (tasks_of_backlog b) = 3 * length b.
Proof.
  unfold tasks_of_backlog.
  induction 1 as [|item b [[i Hi] [t Ht]] _ IH]; [done|].
  rewrite fmap_cons, concat_cons, length_app, IH.
  unfold tasks_of_item. rewrite Hi, Ht. simpl. lia.
Qed.

Lemma lookup_tasks_of_backlog b i item :
  wf_backlog b -> b !! i = Some item ->
  exists feature_id title,
    item !! "id" = Some feature_id /\ item !! "title" = Some title /\
    forall j t, item_tasks feature_id title title title !! j = Some t ->
                tasks_of_backlog b !! (3 * i + j) = Some t.
Proof.
  intros Hwf. revert i.
  induction Hwf as [|it b Hit Hwf IH]; intros i Hi; [done|].
  destruct i as [|i]; simpl in Hi.
  - injection Hi as ->. destruct Hit as [[fid Hid] [t Ht]].
    exists fid, t. split; [done|]. split; [done|].
    intros j tk Hj. unfold tasks_of_backlog. simpl.
    unfold tasks_of_item at 1. rewrite Hid, Ht.
    rewrite lookup_app_l; [done|]. by apply lookup_lt_Some in Hj.
  - destruct (IH i Hi) as (fid & t & Hid & Ht & Hlk).
    exists fid, t. split; [done|]. split; [done|].
    intros j tk Hj. unfold tasks_of_backlog.
    rewrite fmap_cons, concat_cons.
    destruct Hit as [[fid' Hid'] [t' Ht']].
    unfold tasks_of_item at 1. rewrite Hid', Ht'.
    rewrite lookup_app_r by (simpl; lia).
    replace (3 * S i + j - length (item_tasks fid' t' t' t'))
      with (3 * i + j) by (simpl; lia).
    by apply Hlk.
Qed.

(** ** Agents *)

(** The HTTP call itself does raise when the collaborator fails. *)
Lemma http_request_failed req w f :
  network w (requests w) req = Failed f ->
  exists w', http_request req w = (Raise (ClientError f), w').
Proof. intros H. unfold http_request. rewrite H. eauto. Qed.

Ltac case_network :=
  repeat match goal with
    | |- context [network ?w ?sent ?req] =>
        destruct (network w sent req); simpl
    end.

Lemma Agent_setup_returns url self :
  always_returns (Agent_setup url self) (registered self).
Proof.
  intros w.
  unfold Agent_setup, try_except, bind, Agent_session_post, session_post,
    session_request, http_request, bare_except, print, ret, registered.
  simpl. case_network; eexists; reflexivity.
Qed.

Lemma Agent_update_dashboard_returns url self status message :
  always_returns (Agent_update_dashboard url self status message) ().
Proof.
  intros w.
  unfold Agent_update_dashboard, try_except, bind, Agent_session_post,
    session_post, session_request, http_request, bare_except, raise, ret.
  destruct (session self) as [[[|]]|]; simpl;
    case_network; eexists; reflexivity.
Qed.

Lemma Agent_cleanup_returns self :
  always_returns (Agent_cleanup self) (cleaned self).
Proof.
  intros w. unfold Agent_cleanup, cleaned.
  destruct self as [n r [s|]]; simpl; eexists; reflexivity.
Qed.

#[local] Hint Resolve Agent_setup_returns Agent_update_dashboard_returns
  Agent_cleanup_returns : returns.

(** ** Building *)

Lemma foldl_append_ids (ts : list Task) (c : list string) :
  foldl (fun c t => c ++ [task_id t]) c ts = c ++ (task_id <$> ts).
Proof.
  revert c. induction ts as [|t ts IH]; intros c; simpl.
  - by rewrite app_nil_r.
  - rewrite IH. by rewrite <- app_assoc.
Qed.

Lemma building_task_returns url agent task completed :
  always_returns (building_task url agent task completed)
    (completed ++ [task_id task]).
Proof.
  unfold building_task. returns_chain.
Qed.

Lemma building_type_returns url agents ts ty completed agent :
  odict_get agents ty = Some agent ->
  always_returns (building_type url agents ts ty completed)
    (completed ++ (task_id <$> tasks_for ty ts)).
Proof.
  intros Hagent. unfold building_type, tasks_for.
  destruct (filter _ ts) as [|t type_tasks] eqn:Hfilter.
  - simpl. rewrite app_nil_r. apply always_returns_ret.
  - unfold odict_getitem. rewrite Hagent.
    eapply always_returns_bind; [apply always_returns_ret|].
    eapply always_returns_bind; [apply always_returns_print|].
    rewrite <- foldl_append_ids.
    apply always_returns_for_each. intros x s.
    apply building_task_returns.
Qed.

Lemma building_node_returns url st ts :
  tasks (plan st) = Some ts ->
  always_returns (building_node url st) (built st ts).
Proof.
  intros Hplan. unfold building_node.
  eapply always_returns_bind; [apply always_returns_print|].
  eapply always_returns_bind.
  { apply always_returns_for_values with (f := registered).
    apply Agent_setup_returns. }
  unfold plan_tasks. rewrite Hplan.
  eapply always_returns_bind; [apply always_returns_ret|].
  cbn [for_each].
  eapply always_returns_bind.
  { eapply always_returns_bind;
      [by apply building_type_returns with (agent := registered (Agent_init "Backend SWE" "engineer"))|].
    eapply always_returns_bind;
      [by apply building_type_returns with (agent := registered (Agent_init "Frontend SWE" "engineer"))|].
    eapply always_returns_bind;
      [by apply building_type_returns with (agent := registered (Agent_init "QA Engineer" "tester"))|].
    apply always_returns_ret. }
  eapply always_returns_bind.
  { apply always_returns_for_values with (f := cleaned).
    apply Agent_cleanup_returns. }
  unfold built, completed_of. rewrite !app_nil_l, <- !app_assoc.
  apply always_returns_ret.
Qed.

(** Without a plan the building stage stops with a [KeyError], after the
    agents have registered. *)
Lemma building_node_no_plan url st w :
  tasks (plan st) = None ->
  exists w', building_node url st w = (Raise (KeyError "tasks"), w').
Proof.
  intros Hplan. unfold building_node.
  destruct (always_returns_print (nl +:+ "🔨 BUILDING PHASE") w) as [w1 H1].
  rewrite (bind_ok _ _ _ _ _ H1).
  match goal with
  | |- context [for_values ?d (Agent_setup url)] =>
      destruct (always_returns_for_values (Agent_setup url) registered d
                  (Agent_setup_returns url) w1) as [w2 H2]
  end.
  rewrite (bind_ok _ _ _ _ _ H2).
  unfold plan_tasks. rewrite Hplan. eexists. reflexivity.
Qed.

Lemma approval_node_returns st : always_returns (approval_node st) (approved st).
Proof. intros w. eexists. reflexivity. Qed.

(** ** What a node assigns when it returns *)

Lemma bind_inv {A B} (m : M A) (k : A -> M B) w b w' :
  bind m k w = (Ok b, w') ->
  exists a w1, m w = (Ok a, w1) /\ k a w1 = (Ok b, w').
Proof.
  unfold bind. destruct (m w) as [[a|e] w1]; [eauto|discriminate].
Qed.

Ltac invert_bind H :=
  let a := fresh "a" in
  let w := fresh "w" in
  let Ha := fresh "Ha" in
  apply bind_inv in H as (a & w & Ha & H).

Lemma planning_node_inv st w u w' :
  planning_node st w = (Ok u, w') ->
  exists ts,
    u = {| u_phase := Some approval;
           u_plan := Some {| tasks := Some ts; total_tasks := Some (length ts) |};
           u_completed_tasks := None;
           u_messages :=
             Some (messages st
                   ++ ["Created plan with " +:+ pretty (length ts)
                       +:+ " tasks"]) |}.
Proof.
  intros H. unfold planning_node in H.
  invert_bind H. invert_bind H. invert_bind H.
  injection H as <- _. eauto.
Qed.

Lemma approval_node_inv st w u w' :
  approval_node st w = (Ok u, w') -> u = approved st.
Proof. intros H. injection H as <- _. reflexivity. Qed.

Lemma building_node_inv url st w u w' :
  building_node url st w = (Ok u, w') ->
  exists completed,
    u = {| u_phase := Some complete;
           u_plan := None;
           u_completed_tasks := Some completed;
           u_messages :=
             Some (messages st
                   ++ ["Completed " +:+ pretty (length completed)
                       +:+ " tasks"]) |}.
Proof.
  intros H. unfold building_node in H.
  invert_bind H. invert_bind H. invert_bind H. invert_bind H. invert_bind H.
  injection H as <- _. eauto.
Qed.

(** ** The workflow *)

Lemma run_from_END fuel g s : always_returns (run_from fuel g END s) [].
Proof. destruct fuel; apply always_returns_ret. Qed.

Lemma run_from_node fuel g current next node s u states :
  current <> END ->
  odict_get (nodes g) current = Some node ->
  odict_get (edges g) current = Some next ->
  always_returns (node s) u ->
  always_returns (run_from fuel g next (apply_update s u)) states ->
  always_returns (run_from (S fuel) g current s) (apply_update s u :: states).
Proof.
  intros Hne Hnode Hedge Hu Hrest. simpl.
  rewrite decide_False by done. rewrite Hnode, Hedge.
  eapply always_returns_bind; [apply Hu|].
  eapply always_returns_bind; [apply Hrest|].
  apply always_returns_ret.
Qed.

Lemma planning_node_returns st :
  wf_backlog (backlog st) -> always_returns (planning_node st) (planned st).
Proof. intros Hwf w. by apply planning_node_wf. Qed.

Lemma astream_workflow url b :
  wf_backlog b ->
  always_returns (astream (create_workflow url) (initial_state b))
    [initial_state b; after_planning b; after_approval b; after_building b].
Proof.
  intros Hwf. unfold astream. cbn [create_workflow entry_point set_entry_point
    add_edge add_node StateGraph_new].
  eapply always_returns_bind; [|apply always_returns_ret].
  unfold recursion_limit.
  eapply run_from_node; [done|reflexivity|reflexivity| |].
  { by apply planning_node_returns. }
  eapply run_from_node; [done|reflexivity|reflexivity| |].
  { apply approval_node_returns. }
  eapply run_from_node; [done|reflexivity|reflexivity| |].
  { by apply building_node_returns. }
  apply run_from_END.
Qed.

Lemma ainvoke_workflow url b :
  wf_backlog b ->
  always_returns (ainvoke (create_workflow url) (initial_state b))
    (after_building b).
Proof.
  intros Hwf. unfold ainvoke.
  eapply always_returns_bind; [by apply astream_workflow|].
  apply always_returns_ret.
Qed.

(** ** Lists of tasks and their ids *)

Lemma tasks_of_backlog_assignees b :
  Forall known_assignee (tasks_of_backlog b).
Proof.
  unfold tasks_of_backlog. induction b as [|item b IH]; [constructor|].
  rewrite fmap_cons, concat_cons. apply Forall_app. split; [|done].
  unfold tasks_of_item.
  destruct (item !! "id"), (item !! "title"); try constructor;
    unfold known_assignee; simpl; repeat constructor.
Qed.

Lemma tasks_for_cons_eq ty t ts :
  task_assignee t = ty -> tasks_for ty (t :: ts) = t :: tasks_for ty ts.
Proof. intros H. unfold tasks_for. by rewrite filter_cons_True. Qed.

Lemma tasks_for_cons_ne ty t ts :
  task_assignee t <> ty -> tasks_for ty (t :: ts) = tasks_for ty ts.
Proof. intros H. unfold tasks_for. by rewrite filter_cons_False. Qed.

(** Every task belongs to exactly one of the three groups, so grouping
    rearranges the ids and loses or adds none. *)
Lemma completed_of_Permutation ts :
  Forall known_assignee ts -> completed_of ts ≡ₚ task_id <$> ts.
Proof.
  unfold completed_of.
  induction 1 as [|t ts Ht _ IH]; [done|].
  unfold known_assignee in Ht.
  rewrite !elem_of_cons, elem_of_nil in Ht.
  destruct Ht as [Ht|[Ht|[Ht|[]]]].
  - rewrite (tasks_for_cons_eq "backend"), !tasks_for_cons_ne
      by (rewrite ?Ht; done).
    rewrite !fmap_cons. simpl. by constructor.
  - rewrite (tasks_for_cons_eq "frontend"), !tasks_for_cons_ne
      by (rewrite ?Ht; done).
    rewrite !fmap_cons, <- IH, <- app_comm_cons.
    by rewrite <- Permutation_middle.
  - rewrite (tasks_for_cons_eq "qa"), !tasks_for_cons_ne
      by (rewrite ?Ht; done).
    rewrite !fmap_cons, <- IH.
    rewrite (app_assoc _ _ (_ :: _)), <- Permutation_middle.
    by rewrite <- app_assoc.
Qed.

Lemma length_completed_of ts :
  Forall known_assignee ts -> length (completed_of ts) = length ts.
Proof.
  intros H. rewrite (completed_of_Permutation ts H). apply length_fmap.
Qed.

(** ** Ids of different roles never coincide *)

Lemma string_length_app (a b : string) :
  String.length (a +:+ b) = String.length a + String.length b.
Proof. induction a as [|c a IH]; simpl; [done|]. by rewrite IH. Qed.

Lemma backend_id_ne_frontend_id (a b : string) :
  a +:+ "-backend" <> b +:+ "-frontend".
Proof.
  revert b. induction a as [|c a IH]; intros b H.
  - apply (f_equal String.length) in H.
    rewrite !string_length_app in H. simpl in H. lia.
  - destruct b as [|c' b].
    + simpl in H. injection H as _ H.
      destruct a as [|c1 a]; [discriminate|].
      apply (f_equal String.length) in H. simpl in H.
      rewrite !string_length_app in H. simpl in H. lia.
    + simpl in H. injection H as _ H. by apply (IH b).
Qed.

(** ** The backlogs of the sources are well formed *)

Lemma wf_example_backlog : wf_backlog example_backlog.
Proof. repeat constructor; by eexists. Qed.

Lemma wf_test_backlog : wf_backlog test_backlog.
Proof. repeat constructor; by eexists. Qed.

(** ** The plan *)

(** C1. For a backlog of N items that each have an id and a title,
    [planning_node] returns a plan of exactly 3 * N tasks: the tasks at
    positions 3i, 3i+1 and 3i+2 are derived from item i and carry the
    assignees backend, frontend and qa in that order. *)
Theorem planning_node_three_tasks_per_item (st : IterationState) (w : World) :
  wf_backlog (backlog st) ->
  exists u w' ts,
    planning_node st w = (Ok u, w') /\
    (u_plan u ≫= tasks) = Some ts /\
    length ts = 3 * length (backlog st) /\
    forall i item, backlog st !! i = Some item ->
      exists feature_id title,
        item !! "id" = Some feature_id /\
        item !! "title" = Some title /\
        ts !! (3 * i) =
          Some {| task_id := feature_id +:+ "-backend";
                  task_title := "Backend: " +:+ title;
                  task_assignee := "backend" |} /\
        ts !! (3 * i + 1) =
          Some {| task_id := feature_id +:+ "-frontend";
                  task_title := "Frontend: " +:+ title;
                  task_assignee := "frontend" |} /\
        ts !! (3 * i + 2) =
          Some {| task_id := feature_id +:+ "-tests";
                  task_title := "Tests: " +:+ title;
                  task_assignee := "qa" |}.
Proof.
  intros Hwf. destruct (planning_node_wf st w Hwf) as [w' Hrun].
  exists (planned st), w', (tasks_of_backlog (backlog st)).
  split; [done|]. split; [done|].
  split; [by apply length_tasks_of_backlog|].
  intros i item Hitem.
  destruct (lookup_tasks_of_backlog _ _ _ Hwf Hitem)
    as (fid & title & Hid & Htitle & Hlk).
  exists fid, title. split; [done|]. split; [done|].
  split; [|split].
  - rewrite <- (Nat.add_0_r (3 * i)). by apply Hlk.
  - by apply Hlk.
  - by apply Hlk.
Qed.

Lemma planning_node_three_tasks_per_item_witness :
  wf_backlog (backlog (initial_state example_backlog)) /\
  exists u w' ts,
    planning_node (initial_state example_backlog)
      (fresh_world all_packages dashboard_down) = (Ok u, w') /\
    (u_plan u ≫= tasks) = Some ts /\
    length ts = 3 * length (backlog (initial_state example_backlog)) /\
    forall i item, backlog (initial_state example_backlog) !! i = Some item ->
      exists feature_id title,
        item !! "id" = Some feature_id /\
        item !! "title" = Some title /\
        ts !! (3 * i) =
          Some {| task_id := feature_id +:+ "-backend";
                  task_title := "Backend: " +:+ title;
                  task_assignee := "backend" |} /\
        ts !! (3 * i + 1) =
          Some {| task_id := feature_id +:+ "-frontend";
                  task_title := "Frontend: " +:+ title;
                  task_assignee := "frontend" |} /\
        ts !! (3 * i + 2) =
          Some {| task_id := feature_id +:+ "-tests";
                  task_title := "Tests: " +:+ title;
                  task_assignee := "qa" |}.
Proof.
  split.
  - simpl. repeat constructor; by eexists.
  - apply (planning_node_three_tasks_per_item (initial_state example_backlog)).
    simpl. repeat constructor; by eexists.
Defined.

(** C2. After a full run on a backlog whose items have an id and a title,
    whatever the dashboard service answers or fails to answer, the
    completed-task list is as long as the task list of the plan that
    [planning_node] derived, and holds exactly the ids of those tasks. *)
Theorem run_completes_exactly_the_planned_tasks
    (url : string) (b : list (gmap string string)) (w : World) :
  wf_backlog b ->
  exists final w' u w1 ts,
    ainvoke (create_workflow url) (initial_state b) w = (Ok final, w') /\
    planning_node (initial_state b) w = (Ok u, w1) /\
    u_plan u = Some (plan final) /\
    tasks (plan final) = Some ts /\
    length (completed_tasks final) = length ts /\
    completed_tasks final ≡ₚ task_id <$> ts.
Proof.
  intros Hwf.
  destruct (ainvoke_workflow url b Hwf w) as [w' Hrun].
  destruct (planning_node_wf (initial_state b) w Hwf) as [w1 Hplan].
  exists (after_building b), w', (planned (initial_state b)), w1,
    (tasks_of_backlog b).
  split; [done|]. split; [done|]. split; [done|]. split; [done|].
  pose proof (tasks_of_backlog_assignees b) as Hknown.
  split.
  - by apply length_completed_of.
  - by apply completed_of_Permutation.
Qed.

Lemma run_completes_exactly_the_planned_tasks_witness :
  wf_backlog example_backlog /\
  exists final w' u w1 ts,
    ainvoke (create_workflow "http://localhost:8787")
      (initial_state example_backlog)
      (fresh_world all_packages dashboard_down) = (Ok final, w') /\
    planning_node (initial_state example_backlog)
      (fresh_world all_packages dashboard_down) = (Ok u, w1) /\
    u_plan u = Some (plan final) /\
    tasks (plan final) = Some ts /\
    length (completed_tasks final) = length ts /\
    completed_tasks final ≡ₚ task_id <$> ts.
Proof.
  split.
  - repeat constructor; by eexists.
  - apply (run_completes_exactly_the_planned_tasks "http://localhost:8787"
             example_backlog).
    repeat constructor; by eexists.
Defined.

(** ** Phases *)

(** C3. A run on any backlog whose items have an id and a title, the empty
    backlog included, goes through the phases planning, approval, building,
    complete in this order and through no others: it starts in planning,
    [planning_node] assigns approval, [approval_node] assigns building,
    [building_node] assigns complete, and the run ends in complete. *)
Theorem workflow_visits_phases_in_order
    (url : string) (b : list (gmap string string)) (w : World) :
  wf_backlog b ->
  phase (initial_state b) = planning /\
  (forall st w0 u w1,
     planning_node st w0 = (Ok u, w1) -> u_phase u = Some approval) /\
  (forall st w0 u w1,
     approval_node st w0 = (Ok u, w1) -> u_phase u = Some building) /\
  (forall st w0 u w1,
     building_node url st w0 = (Ok u, w1) -> u_phase u = Some complete) /\
  exists states final w1 w2,
    astream (create_workflow url) (initial_state b) w = (Ok states, w1) /\
    phase <$> states = [planning; approval; building; complete] /\
    ainvoke (create_workflow url) (initial_state b) w = (Ok final, w2) /\
    phase final = complete.
Proof.
  intros Hwf. split; [done|].
  split; [|split; [|split]].
  - intros st w0 u w1 H. by destruct (planning_node_inv _ _ _ _ H) as [ts ->].
  - intros st w0 u w1 H. by rewrite (approval_node_inv _ _ _ _ H).
  - intros st w0 u w1 H.
    by destruct (building_node_inv _ _ _ _ _ H) as [completed ->].
  - destruct (astream_workflow url b Hwf w) as [w1 Hstream].
    destruct (ainvoke_workflow url b Hwf w) as [w2 Hrun].
    by exists [initial_state b; after_planning b; after_approval b;
               after_building b], (after_building b), w1, w2.
Qed.

Lemma workflow_visits_phases_in_order_witness :
  wf_backlog [] /\
  exists states final w1 w2,
    astream (create_workflow "http://localhost:8787") (initial_state [])
      (fresh_world all_packages dashboard_down) = (Ok states, w1) /\
    phase <$> states = [planning; approval; building; complete] /\
    ainvoke (create_workflow "http://localhost:8787") (initial_state [])
      (fresh_world all_packages dashboard_down) = (Ok final, w2) /\
    phase final = complete.
Proof.
  split.
  - constructor.
  - apply (workflow_visits_phases_in_order "http://localhost:8787" []
             (fresh_world all_packages dashboard_down)).
    constructor.
Defined.

(** ** The dashboard service *)

(** C4. Two runs on the same backlog, one with the dashboard service
    answering every request and one with every HTTP call failing, both
    return without raising, in the same final phase and with the same number
    of completed tasks. *)
Theorem run_independent_of_dashboard
    (url : string) (b : list (gmap string string)) (w1 w2 : World) :
  wf_backlog b ->
  reachable (network w1) ->
  unreachable (network w2) ->
  exists final1 w1' final2 w2',
    ainvoke (create_workflow url) (initial_state b) w1 = (Ok final1, w1') /\
    ainvoke (create_workflow url) (initial_state b) w2 = (Ok final2, w2') /\
    phase final1 = phase final2 /\
    length (completed_tasks final1) = length (completed_tasks final2).
Proof.
  intros Hwf _ _.
  destruct (ainvoke_workflow url b Hwf w1) as [w1' H1].
  destruct (ainvoke_workflow url b Hwf w2) as [w2' H2].
  by exists (after_building b), w1', (after_building b), w2'.
Qed.

Lemma run_independent_of_dashboard_witness :
  wf_backlog example_backlog /\
  reachable (network (fresh_world all_packages dashboard_up)) /\
  unreachable (network (fresh_world all_packages dashboard_down)) /\
  exists final1 w1' final2 w2',
    ainvoke (create_workflow "http://localhost:8787")
      (initial_state example_backlog)
      (fresh_world all_packages dashboard_up) = (Ok final1, w1') /\
    ainvoke (create_workflow "http://localhost:8787")
      (initial_state example_backlog)
      (fresh_world all_packages dashboard_down) = (Ok final2, w2') /\
    phase final1 = phase final2 /\
    length (completed_tasks final1) = length (completed_tasks final2).
Proof.
  split; [repeat constructor; by eexists|].
  split; [intros sent req; by exists 200|].
  split; [intros sent req; by exists ConnectionRefused|].
  apply (run_independent_of_dashboard "http://localhost:8787" example_backlog).
  - repeat constructor; by eexists.
  - intros sent req. by exists 200.
  - intros sent req. by exists ConnectionRefused.
Defined.

(** C5. Whatever failure an HTTP call of [Agent.setup] or
    [Agent.update_dashboard] meets (the call does raise when the service
    fails), the method catches it: from every world, with every collaborator
    behind the network, both methods return to their caller and do not
    raise, and the building stage, which makes these calls, returns too. *)
Theorem agent_methods_never_raise
    (url : string) (self : Agent) (status message : string) (w : World) :
  (forall req f, network w (requests w) req = Failed f ->
     exists w', http_request req w = (Raise (ClientError f), w')) /\
  (exists self' w', Agent_setup url self w = (Ok self', w')) /\
  (exists w', Agent_update_dashboard url self status message w = (Ok (), w')) /\
  (forall st ts, tasks (plan st) = Some ts ->
     exists u w', building_node url st w = (Ok u, w')).
Proof.
  split; [|split; [|split]].
  - intros req f. apply http_request_failed.
  - destruct (Agent_setup_returns url self w) as [w' H]. eauto.
  - apply Agent_update_dashboard_returns.
  - intros st ts Hplan.
    destruct (building_node_returns url st ts Hplan w) as [w' H]. eauto.
Qed.

Lemma agent_methods_never_raise_witness :
  let w := fresh_world all_packages dashboard_down in
  let self := Agent_init "Backend SWE" "engineer" in
  let req := {| method := POST;
                url := "http://localhost:8787/api/agent/register";
                json := [("id", "Backend SWE"); ("name", "Backend SWE");
                         ("role", "engineer")] |} in
  network w (requests w) req = Failed ConnectionRefused /\
  (exists w', http_request req w = (Raise (ClientError ConnectionRefused), w')) /\
  (exists self' w', Agent_setup "http://localhost:8787" self w = (Ok self', w')) /\
  (exists w', Agent_update_dashboard "http://localhost:8787" self "busy"
                "Working on: Backend: User Login API" w = (Ok (), w')) /\
  (exists u w', building_node "http://localhost:8787"
                  (after_approval example_backlog) w = (Ok u, w')).
Proof.
  intros w self req.
  destruct (agent_methods_never_raise "http://localhost:8787" self "busy"
              "Working on: Backend: User Login API" w)
    as (Hraise & Hsetup & Hupd & Hstage).
  split; [reflexivity|].
  split; [apply Hraise; reflexivity|].
  split; [exact Hsetup|].
  split; [exact Hupd|].
  apply (Hstage (after_approval example_backlog)
           (tasks_of_backlog example_backlog)).
  reflexivity.
Defined.

(** ** Start of the quick-start script *)

Lemma quickstart_imports_missing w dep :
  dep ∈ ["langgraph"; "aiohttp"; "dotenv"] ->
  dep ∉ packages w ->
  quickstart_imports w = (Raise (SystemExit 1), after_missing_dependency w).
Proof.
  intros Hdep Hmissing.
  unfold quickstart_imports, try_except, bind, import_module.
  unfold after_missing_dependency.
  destruct (decide ("langgraph" ∈ packages w)) as [H1|H1]; simpl;
    [destruct (decide ("aiohttp" ∈ packages w)) as [H2|H2]; simpl;
       [destruct (decide ("dotenv" ∈ packages w)) as [H3|H3]; simpl|]|];
    try (by rewrite <- app_assoc).
  exfalso. apply Hmissing.
  rewrite !elem_of_cons, elem_of_nil in Hdep.
  by destruct Hdep as [->|[->|[->|[]]]].
Qed.

(** C6. When one of the required packages langgraph, aiohttp and dotenv is
    missing, the quick-start script prints its two-line message and stops
    with exit status 1; nothing else has happened by then: no request was
    sent, no time was slept and no line of a workflow stage was printed. *)
Theorem quickstart_missing_dependency (w : World) (dep : string) :
  dep ∈ ["langgraph"; "aiohttp"; "dotenv"] ->
  dep ∉ packages w ->
  quickstart w = (Raise (SystemExit 1), after_missing_dependency w) /\
  python quickstart w = (1, after_missing_dependency w).
Proof.
  intros Hdep Hmissing.
  assert (quickstart w = (Raise (SystemExit 1), after_missing_dependency w))
    as Hrun.
  { unfold quickstart.
    by rewrite (bind_raise _ _ _ _ _ (quickstart_imports_missing w dep Hdep Hmissing)). }
  split; [done|]. unfold python. by rewrite Hrun.
Qed.

Lemma quickstart_missing_dependency_witness :
  let w := fresh_world {[ "langgraph"; "dotenv" ]} dashboard_up in
  "aiohttp" ∈ ["langgraph"; "aiohttp"; "dotenv"] /\
  ("aiohttp" ∉ packages w) /\
  quickstart w = (Raise (SystemExit 1), after_missing_dependency w) /\
  python quickstart w = (1, after_missing_dependency w).
Proof.
  intros w.
  assert ("aiohttp" ∈ ["langgraph"; "aiohttp"; "dotenv"]) as Hdep
    by (apply (bool_decide_unpack _); vm_compute; exact I).
  assert ("aiohttp" ∉ packages w) as Hmissing
    by (apply (bool_decide_unpack _); vm_compute; exact I).
  split; [exact Hdep|]. split; [exact Hmissing|].
  exact (quickstart_missing_dependency w "aiohttp" Hdep Hmissing).
Defined.

(** With all three packages installed the check passes and prints nothing. *)
Lemma quickstart_imports_present w :
  "langgraph" ∈ packages w -> "aiohttp" ∈ packages w ->
  "dotenv" ∈ packages w ->
  quickstart_imports w = (Ok (), w).
Proof.
  intros H1 H2 H3. unfold quickstart_imports, try_except, bind, import_module.
  by rewrite !decide_True.
Qed.

(** ** Planning is a function of the backlog *)

Lemma planning_item_pure item acc :
  exists r, forall w, planning_item item acc w = (r, w).
Proof.
  unfold planning_item, getitem, bind.
  destruct (item !! "id"), (item !! "title"); eexists; intros w; reflexivity.
Qed.

Lemma planning_loop_pure b acc :
  exists r, forall w, for_each b planning_item acc w = (r, w).
Proof.
  revert acc. induction b as [|item b IH]; intros acc; simpl.
  - by exists (Ok acc).
  - destruct (planning_item_pure item acc) as [[acc'|e] Hitem].
    + destruct (IH acc') as [r Hr]. exists r. intros w.
      by rewrite (bind_ok _ _ _ _ _ (Hitem w)).
    + exists (Raise e). intros w.
      by rewrite (bind_raise _ _ _ _ _ (Hitem w)).
Qed.

(** C7. Two calls of [planning_node] on states with equal backlogs yield
    equal plans (the same tasks in the same order and the same total), or
    raise the same exception, whatever the other fields of the two states
    and whatever the two worlds (environment, packages, dashboard service,
    requests sent, output) are. *)
Theorem planning_node_deterministic
    (st1 st2 : IterationState) (w1 w2 : World) :
  backlog st1 = backlog st2 ->
  plan_result (planning_node st1 w1) = plan_result (planning_node st2 w2).
Proof.
  intros Hbacklog.
  destruct (planning_loop_pure (backlog st1) []) as [r Hr].
  unfold plan_result, planning_node, bind. simpl.
  rewrite <- Hbacklog, !Hr.
  destruct r; reflexivity.
Qed.

Lemma planning_node_deterministic_witness :
  let st1 := initial_state example_backlog in
  let st2 := {| phase := building; backlog := example_backlog;
                plan := {| tasks := Some []; total_tasks := Some 7 |};
                completed_tasks := ["FEAT-000-backend"];
                messages := ["Plan approved by product owner"] |} in
  let w1 := fresh_world all_packages dashboard_up in
  let w2 := {| packages := ∅; environ := {[ "COORDINATOR_URL" := "http://example.org" ]};
               dotenv_file := ∅; network := dashboard_down;
               requests := []; stdout := ["earlier output"]; slept := 4 |} in
  backlog st1 = backlog st2 /\
  plan_result (planning_node st1 w1) = plan_result (planning_node st2 w2) /\
  exists ts, plan_result (planning_node st1 w1)
             = Ok (Some {| tasks := Some ts; total_tasks := Some 6 |}).
Proof.
  intros st1 st2 w1 w2.
  split; [reflexivity|].
  split; [apply (planning_node_deterministic st1 st2 w1 w2); reflexivity|].
  eexists. vm_compute. reflexivity.
Defined.

(** ** The message log *)

(** C8. Each of the three nodes returns the incoming message log with one
    string appended and every earlier entry kept in place: whenever
    [planning_node] or [building_node] returns, and [approval_node] always
    does, the log it assigns is the log of its state followed by one message.
    [planning_node] returns on every state whose backlog is well formed, the
    initial state included, and [building_node] on every state whose plan has
    tasks.  So a run that starts from the empty log grows it by one message
    per stage and ends with exactly three. *)
Theorem message_log_append_only
    (url : string) (b : list (gmap string string)) (w : World) :
  wf_backlog b ->
  (forall st w0 u w1,
     planning_node st w0 = (Ok u, w1) ->
     exists m, u_messages u = Some (messages st ++ [m]) /\
               messages (apply_update st u) = messages st ++ [m]) /\
  (forall st w0,
     wf_backlog (backlog st) -> exists u w1, planning_node st w0 = (Ok u, w1)) /\
  (forall st w0,
     exists u w1 m,
       approval_node st w0 = (Ok u, w1) /\
       u_messages u = Some (messages st ++ [m]) /\
       messages (apply_update st u) = messages st ++ [m]) /\
  (forall st w0 u w1,
     building_node url st w0 = (Ok u, w1) ->
     exists m, u_messages u = Some (messages st ++ [m]) /\
               messages (apply_update st u) = messages st ++ [m]) /\
  (forall st ts w0,
     tasks (plan st) = Some ts ->
     exists u w1, building_node url st w0 = (Ok u, w1)) /\
  (exists s0 s1 s2 s3 w' m1 m2 m3,
     astream (create_workflow url) (initial_state b) w
       = (Ok [s0; s1; s2; s3], w') /\
     messages s0 = [] /\
     messages s1 = messages s0 ++ [m1] /\
     messages s2 = messages s1 ++ [m2] /\
     messages s3 = messages s2 ++ [m3]) /\
  (exists final w',
     ainvoke (create_workflow url) (initial_state b) w = (Ok final, w') /\
     length (messages final) = 3).
Proof.
  intros Hwf.
  split; [|split; [|split; [|split; [|split; [|split]]]]].
  - intros st w0 u w1 H.
    destruct (planning_node_inv _ _ _ _ H) as [ts ->]. by eexists.
  - intros st w0 Hst. destruct (planning_node_wf st w0 Hst) as [w1 H]. eauto.
  - intros st w0. destruct (approval_node_returns st w0) as [w1 H].
    exists (approved st), w1. by eexists.
  - intros st w0 u w1 H.
    destruct (building_node_inv _ _ _ _ _ H) as [completed ->]. by eexists.
  - intros st ts w0 Hplan.
    destruct (building_node_returns url st ts Hplan w0) as [w1 H]. eauto.
  - destruct (astream_workflow url b Hwf w) as [w' H].
    exists (initial_state b), (after_planning b), (after_approval b),
      (after_building b), w'.
    do 3 eexists. split; [exact H|]. by repeat split.
  - destruct (ainvoke_workflow url b Hwf w) as [w' H].
    by exists (after_building b), w'.
Qed.

Lemma message_log_append_only_witness :
  let url := "http://localhost:8787" in
  let w := fresh_world all_packages dashboard_down in
  let st0 := initial_state example_backlog in
  let st1 := after_planning example_backlog in
  let st2 := after_approval example_backlog in
  wf_backlog example_backlog /\
  (exists u w1 m,
     planning_node st0 w = (Ok u, w1) /\
     u_messages u = Some (messages st0 ++ [m]) /\
     messages (apply_update st0 u) = messages st0 ++ [m]) /\
  (exists u w1 m,
     approval_node st1 w = (Ok u, w1) /\
     u_messages u = Some (messages st1 ++ [m]) /\
     messages (apply_update st1 u) = messages st1 ++ [m]) /\
  (exists u w1 m,
     building_node url st2 w = (Ok u, w1) /\
     u_messages u = Some (messages st2 ++ [m]) /\
     messages (apply_update st2 u) = messages st2 ++ [m]) /\
  (exists final w',
     ainvoke (create_workflow url) (initial_state example_backlog) w
       = (Ok final, w') /\
     length (messages final) = 3).
Proof.
  intros url w st0 st1 st2.
  assert (wf_backlog example_backlog) as Hwf
    by (repeat constructor; by eexists).
  split; [exact Hwf|].
  destruct (message_log_append_only url example_backlog w Hwf)
    as (Hplanning & Hplans & Happroval & Hbuilding & Hbuilds & _ & Hrun).
  split; [|split; [|split]].
  - destruct (Hplans st0 w Hwf) as (u & w1 & H).
    destruct (Hplanning st0 w u w1 H) as (m & Hm).
    exists u, w1, m. split; [exact H|exact Hm].
  - exact (Happroval st1 w).
  - destruct (Hbuilds st2 (tasks_of_backlog example_backlog) w eq_refl)
      as (u & w1 & H).
    destruct (Hbuilding st2 w u w1 H) as (m & Hm).
    exists u, w1, m. split; [exact H|exact Hm].
  - exact Hrun.
Defined.

(** ** The plan stays as planned *)

(** C9. The plan [planning_node] returns has [total_tasks] equal to the
    length of [tasks]; [approval_node] and [building_node] leave the plan of
    the state as it is, so every state of a run after planning carries that
    same consistent plan. *)
Theorem plan_total_matches_tasks
    (url : string) (st : IterationState) (w : World) :
  wf_backlog (backlog st) ->
  (exists u w' p,
     planning_node st w = (Ok u, w') /\ u_plan u = Some p /\
     plan_consistent p) /\
  (forall s w0 u w1,
     approval_node s w0 = (Ok u, w1) -> plan (apply_update s u) = plan s) /\
  (forall s w0 u w1,
     building_node url s w0 = (Ok u, w1) -> plan (apply_update s u) = plan s) /\
  (exists s0 s1 s2 s3 w',
     astream (create_workflow url) (initial_state (backlog st)) w
       = (Ok [s0; s1; s2; s3], w') /\
     plan_consistent (plan s1) /\ plan s2 = plan s1 /\ plan s3 = plan s1).
Proof.
  intros Hwf. split; [|split; [|split]].
  - destruct (planning_node_wf st w Hwf) as [w' H].
    exists (planned st), w'. eexists. split; [done|]. split; [done|].
    by eexists.
  - intros s w0 u w1 H. by rewrite (approval_node_inv _ _ _ _ H).
  - intros s w0 u w1 H.
    by destruct (building_node_inv _ _ _ _ _ H) as [completed ->].
  - destruct (astream_workflow url (backlog st) Hwf w) as [w' H].
    exists (initial_state (backlog st)), (after_planning (backlog st)),
      (after_approval (backlog st)), (after_building (backlog st)), w'.
    split; [done|]. split; [by eexists|done].
Qed.

Lemma plan_total_matches_tasks_witness :
  let st := initial_state example_backlog in
  let w := fresh_world all_packages dashboard_up in
  wf_backlog (backlog st) /\
  (exists u w' p,
     planning_node st w = (Ok u, w') /\ u_plan u = Some p /\
     plan_consistent p) /\
  (exists s0 s1 s2 s3 w',
     astream (create_workflow "http://localhost:8787")
       (initial_state (backlog st)) w = (Ok [s0; s1; s2; s3], w') /\
     plan_consistent (plan s1) /\ plan s2 = plan s1 /\ plan s3 = plan s1).
Proof.
  intros st w.
  assert (wf_backlog (backlog st)) as Hwf
    by (simpl; repeat constructor; by eexists).
  split; [exact Hwf|].
  destruct (plan_total_matches_tasks "http://localhost:8787" st w Hwf)
    as (Hplanning & _ & _ & Hrun).
  split; [exact Hplanning|exact Hrun].
Defined.

(** ** Order of completion *)

Lemma completed_order_differs b :
  wf_backlog b -> 2 <= length b ->
  completed_of (tasks_of_backlog b) <> task_id <$> tasks_of_backlog b.
Proof.
  intros Hwf Hlen.
  destruct b as [|i1 [|i2 rest]]; simpl in Hlen; try lia.
  apply Forall_cons in Hwf as [[[f1 Hf1] [t1 Ht1]] Hwf].
  apply Forall_cons in Hwf as [[[f2 Hf2] [t2 Ht2]] _].
  unfold tasks_of_backlog. rewrite !fmap_cons, !concat_cons.
  unfold tasks_of_item at 1 2. unfold tasks_of_item at 2 3.
  rewrite Hf1, Ht1, Hf2, Ht2.
  cbn [item_tasks app]. unfold completed_of.
  rewrite (tasks_for_cons_eq "backend") by done.
  rewrite 2!(tasks_for_cons_ne "backend") by done.
  rewrite (tasks_for_cons_eq "backend") by done.
  rewrite !fmap_cons. cbn [app task_id].
  intros Heq. injection Heq as Heq _.
  by apply backend_id_ne_frontend_id in Heq.
Qed.

(** C10. [building_node] completes the backend tasks of the plan first, then
    the frontend tasks, then the qa tasks, each group in plan order; so after
    a run on a backlog of two or more items the completed ids are not in the
    order of the tasks of the plan. *)
Theorem building_groups_by_assignee
    (url : string) (st : IterationState) (ts : list Task)
    (b : list (gmap string string)) (w : World) :
  tasks (plan st) = Some ts ->
  wf_backlog b ->
  2 <= length b ->
  (exists u w',
     building_node url st w = (Ok u, w') /\
     u_completed_tasks u =
       Some ((task_id <$> filter (fun t => task_assignee t = "backend") ts)
             ++ (task_id <$> filter (fun t => task_assignee t = "frontend") ts)
             ++ (task_id <$> filter (fun t => task_assignee t = "qa") ts))) /\
  (exists final w' planned_tasks,
     ainvoke (create_workflow url) (initial_state b) w = (Ok final, w') /\
     tasks (plan final) = Some planned_tasks /\
     completed_tasks final <> task_id <$> planned_tasks).
Proof.
  intros Hplan Hwf Hlen. split.
  - destruct (building_node_returns url st ts Hplan w) as [w' H].
    by exists (built st ts), w'.
  - destruct (ainvoke_workflow url b Hwf w) as [w' H].
    exists (after_building b), w', (tasks_of_backlog b).
    split; [done|]. split; [done|].
    by apply completed_order_differs.
Qed.

Lemma building_groups_by_assignee_witness :
  let st := after_approval example_backlog in
  let w := fresh_world all_packages dashboard_down in
  tasks (plan st) = Some (tasks_of_backlog example_backlog) /\
  wf_backlog example_backlog /\
  2 <= length example_backlog /\
  (exists u w',
     building_node "http://localhost:8787" st w = (Ok u, w') /\
     u_completed_tasks u =
       Some ((task_id <$> filter (fun t => task_assignee t = "backend")
                            (tasks_of_backlog example_backlog))
             ++ (task_id <$> filter (fun t => task_assignee t = "frontend")
                               (tasks_of_backlog example_backlog))
             ++ (task_id <$> filter (fun t => task_assignee t = "qa")
                               (tasks_of_backlog example_backlog)))) /\
  (exists final w' planned_tasks,
     ainvoke (create_workflow "http://localhost:8787")
       (initial_state example_backlog) w = (Ok final, w') /\
     tasks (plan final) = Some planned_tasks /\
     completed_tasks final <> task_id <$> planned_tasks).
Proof.
  intros st w.
  assert (tasks (plan st) = Some (tasks_of_backlog example_backlog)) as Hplan
    by reflexivity.
  assert (wf_backlog example_backlog) as Hwf
    by (repeat constructor; by eexists).
  assert (2 <= length example_backlog) as Hlen by (simpl; lia).
  split; [exact Hplan|]. split; [exact Hwf|]. split; [exact Hlen|].
  exact (building_groups_by_assignee "http://localhost:8787" st
           (tasks_of_backlog example_backlog) example_backlog w
           Hplan Hwf Hlen).
Defined.

(** The run on the example backlog of the source, with the dashboard down. *)
Example example_run_completed :
  completed_tasks
    <$> match (ainvoke (create_workflow "http://localhost:8787")
                 (initial_state example_backlog)
                 (fresh_world all_packages dashboard_down)).1 with
        | Ok final => Some final
        | Raise _ => None
        end
  = Some ["FEAT-001-backend"; "FEAT-002-backend"; "FEAT-001-frontend";
          "FEAT-002-frontend"; "FEAT-001-tests"; "FEAT-002-tests"].
Proof. vm_compute. reflexivity. Qed.

(** An item without a title stops planning, and with it the run. *)
Example ill_formed_backlog_raises :
  (ainvoke (create_workflow "http://localhost:8787")
     (initial_state [ {[ "id" := "FEAT-003" ]} ])
     (fresh_world all_packages dashboard_up)).1
  = Raise (KeyError "title").
Proof. vm_compute. reflexivity. Qed.

(** * Further properties of the code *)

(** ** Accounting rules *)

Section Accounting.

Context {inv : World -> Prop} {Q : nat -> World -> World -> Prop}.
Hypothesis Q_zero : forall w, Q 0 w w.
Hypothesis Q_add :
  forall j k w w1 w2, Q j w w1 -> Q k w1 w2 -> Q (j + k) w w2.

Lemma costs_eq {A} (m : M A) a j k :
  costs inv Q m a j -> j = k -> costs inv Q m a k.
Proof. by intros H <-. Qed.

Lemma costs_pure {A} (m : M A) a :
  (forall w, m w = (Ok a, w)) -> costs inv Q m a 0.
Proof. intros H w Hw. exists w. by rewrite H. Qed.

Lemma costs_ret {A} (a : A) : costs inv Q (ret a) a 0.
Proof. by apply costs_pure. Qed.

Lemma costs_bind {A B} (m : M A) (k : A -> M B) a b j n :
  costs inv Q m a j -> costs inv Q (k a) b n ->
  costs inv Q (bind m k) b (j + n).
Proof.
  intros Hm Hk w Hw.
  destruct (Hm w Hw) as (w1 & H1 & Hw1 & HQ1).
  destruct (Hk w1 Hw1) as (w2 & H2 & Hw2 & HQ2).
  exists w2. rewrite (bind_ok _ _ _ _ _ H1). eauto.
Qed.

Lemma costs_for_each {A S} (body : A -> S -> M S) (f : S -> A -> S) xs s k :
  (forall x s, costs inv Q (body x s) (f s x) k) ->
  costs inv Q (for_each xs body s) (foldl f s xs) (length xs * k).
Proof.
  intros Hbody. revert s. induction xs as [|x xs IH]; intros s; simpl.
  - apply costs_ret.
  - eapply costs_bind; [apply Hbody|apply IH].
Qed.

Lemma costs_for_values {V} (body : V -> M V) (f : V -> V) d k :
  (forall v, costs inv Q (body v) (f v) k) ->
  costs inv Q (for_values d body) (prod_map id f <$> d) (length d * k).
Proof.
  intros Hbody. induction d as [|[key v] d IH]; simpl.
  - apply costs_ret.
  - eapply costs_eq.
    + eapply costs_bind; [apply Hbody|].
      eapply costs_bind; [apply IH|]. apply costs_ret.
    + lia.
Qed.

(** The stages, given what the primitive steps cost. *)

Variable url : string.
Variables sleep_cost : nat -> nat.
Variables setup_cost update_cost : nat.
Hypothesis costs_print : forall line, costs inv Q (print line) () 0.
Hypothesis costs_sleep : forall n, costs inv Q (sleep n) () (sleep_cost n).
Hypothesis costs_setup :
  forall a, costs inv Q (Agent_setup url a) (registered a) setup_cost.
Hypothesis costs_update :
  forall a status message,
    costs inv Q (Agent_update_dashboard url (registered a) status message)
      () update_cost.

Lemma costs_planning_node st :
  wf_backlog (backlog st) -> costs inv Q (planning_node st) (planned st) 0.
Proof.
  intros Hwf. unfold planning_node.
  eapply costs_eq.
  - eapply costs_bind; [apply costs_print|].
    eapply costs_bind.
    { apply costs_pure. intros w. by apply planning_loop_wf. }
    simpl. eapply costs_bind; [apply costs_print|]. apply costs_ret.
  - done.
Qed.

Lemma costs_approval_node st :
  costs inv Q (approval_node st) (approved st) (sleep_cost 3).
Proof.
  unfold approval_node. eapply costs_eq.
  - eapply costs_bind; [apply costs_print|].
    eapply costs_bind; [apply costs_print|].
    eapply costs_bind; [apply costs_sleep|].
    eapply costs_bind; [apply costs_print|]. apply costs_ret.
  - simpl. lia.
Qed.

(** One task costs two dashboard updates around one second of work. *)

Lemma costs_building_task a task completed :
  costs inv Q (building_task url (registered a) task completed)
    (completed ++ [task_id task]) (update_cost + sleep_cost 1 + update_cost).
Proof.
  unfold building_task. eapply costs_eq.
  - eapply costs_bind; [apply costs_update|].
    eapply costs_bind; [apply costs_sleep|].
    eapply costs_bind; [apply costs_print|].
    eapply costs_bind; [apply costs_update|]. apply costs_ret.
  - lia.
Qed.

Lemma costs_building_type agents ts ty completed a :
  odict_get agents ty = Some (registered a) ->
  costs inv Q (building_type url agents ts ty completed)
    (completed ++ (task_id <$> tasks_for ty ts))
    (length (tasks_for ty ts) * (update_cost + sleep_cost 1 + update_cost)).
Proof.
  intros Hagent. unfold building_type, tasks_for.
  destruct (filter _ ts) as [|t type_tasks] eqn:Hfilter.
  - simpl. rewrite app_nil_r. apply costs_ret.
  - unfold odict_getitem. rewrite Hagent.
    eapply costs_eq.
    + eapply costs_bind; [apply costs_ret|].
      eapply costs_bind; [apply costs_print|].
      rewrite <- foldl_append_ids.
      apply costs_for_each. intros x s. apply costs_building_task.
    + done.
Qed.

Lemma costs_building_node st ts :
  tasks (plan st) = Some ts ->
  costs inv Q (building_node url st) (built st ts)
    (3 * setup_cost + length (completed_of ts) * (update_cost + sleep_cost 1 + update_cost)).
Proof.
  intros Hplan. unfold building_node. eapply costs_eq.
  - eapply costs_bind; [apply costs_print|].
    eapply costs_bind.
    { apply costs_for_values with (f := registered). apply costs_setup. }
    unfold plan_tasks. rewrite Hplan.
    eapply costs_bind; [apply costs_ret|].
    cbn [for_each].
    eapply costs_bind.
    { eapply costs_bind;
        [by apply costs_building_type with (a := Agent_init "Backend SWE" "engineer")|].
      eapply costs_bind;
        [by apply costs_building_type with (a := Agent_init "Frontend SWE" "engineer")|].
      eapply costs_bind;
        [by apply costs_building_type with (a := Agent_init "QA Engineer" "tester")|].
      apply costs_ret. }
    eapply costs_bind.
    { apply costs_for_values with (f := cleaned).
      intros v. apply costs_pure. intros w.
      unfold Agent_cleanup, cleaned. by destruct v as [n r [s|]]. }
    unfold built, completed_of. rewrite !app_nil_l, <- !app_assoc.
    apply costs_ret.
  - unfold completed_of. rewrite !length_app, !length_fmap. simpl. lia.
Qed.

Lemma costs_run_from_END fuel g s : costs inv Q (run_from fuel g END s) [] 0.
Proof. destruct fuel; apply costs_ret. Qed.

Lemma costs_run_from_node fuel g current next node s u states j k :
  current <> END ->
  odict_get (nodes g) current = Some node ->
  odict_get (edges g) current = Some next ->
  costs inv Q (node s) u j ->
  costs inv Q (run_from fuel g next (apply_update s u)) states k ->
  costs inv Q (run_from (S fuel) g current s) (apply_update s u :: states)
    (j + k).
Proof.
  intros Hne Hnode Hedge Hu Hrest. simpl.
  rewrite decide_False by done. rewrite Hnode, Hedge.
  eapply costs_eq.
  - eapply costs_bind; [apply Hu|].
    eapply costs_bind; [apply Hrest|]. apply costs_ret.
  - lia.
Qed.

Lemma costs_astream b :
  wf_backlog b ->
  costs inv Q (astream (create_workflow url) (initial_state b))
    [initial_state b; after_planning b; after_approval b; after_building b]
    (sleep_cost 3 + 3 * setup_cost + 3 * length b * (update_cost + sleep_cost 1 + update_cost)).
Proof.
  intros Hwf. unfold astream. cbn [create_workflow entry_point set_entry_point
    add_edge add_node StateGraph_new].
  eapply costs_eq.
  - eapply costs_bind; [|apply costs_ret].
    unfold recursion_limit.
    eapply costs_run_from_node; [done|reflexivity|reflexivity| |].
    { by apply costs_planning_node. }
    eapply costs_run_from_node; [done|reflexivity|reflexivity| |].
    { apply costs_approval_node. }
    eapply costs_run_from_node; [done|reflexivity|reflexivity| |].
    { by apply costs_building_node. }
    apply costs_run_from_END.
  - rewrite length_completed_of by apply tasks_of_backlog_assignees.
    rewrite length_tasks_of_backlog by done. lia.
Qed.

Lemma costs_ainvoke b :
  wf_backlog b ->
  costs inv Q (ainvoke (create_workflow url) (initial_state b))
    (after_building b)
    (sleep_cost 3 + 3 * setup_cost + 3 * length b * (update_cost + sleep_cost 1 + update_cost)).
Proof.
  intros Hwf. unfold ainvoke. eapply costs_eq.
  - eapply costs_bind; [by apply costs_astream|]. apply costs_ret.
  - lia.
Qed.

End Accounting.

(** ** Time slept *)

Lemma sleeps_zero w : sleeps 0 w w.
Proof. unfold sleeps. lia. Qed.

Lemma sleeps_add j k w w1 w2 :
  sleeps j w w1 -> sleeps k w1 w2 -> sleeps (j + k) w w2.
Proof. unfold sleeps. lia. Qed.

Lemma sleeps_print line : costs any_world sleeps (print line) () 0.
Proof.
  intros w _. eexists. split; [reflexivity|]. split; [done|].
  unfold sleeps. simpl. lia.
Qed.

Lemma sleeps_sleep n : costs any_world sleeps (sleep n) () n.
Proof. intros w _. eexists. split; [reflexivity|]. split; done. Qed.

Lemma sleeps_setup url a :
  costs any_world sleeps (Agent_setup url a) (registered a) 0.
Proof.
  intros w _.
  unfold Agent_setup, try_except, bind, Agent_session_post, session_post,
    session_request, http_request, bare_except, print, ret, registered, sleeps.
  simpl. case_network; eexists; (split; [reflexivity|]); simpl; split; (done || lia).
Qed.

Lemma sleeps_update url a status message :
  costs any_world sleeps (Agent_update_dashboard url a status message) () 0.
Proof.
  intros w _.
  unfold Agent_update_dashboard, try_except, bind, Agent_session_post,
    session_post, session_request, http_request, bare_except, raise, ret,
    sleeps.
  destruct (session a) as [[[|]]|]; simpl;
    case_network; eexists; (split; [reflexivity|]); simpl; split; (done || lia).
Qed.

(** X1. A run on a backlog of N well-formed items sleeps 3 seconds for the
    approval and one second per task, 3 + 3 * N seconds in all, whatever the
    dashboard service does. *)
Theorem run_sleeps_three_plus_one_per_task
    (url : string) (b : list (gmap string string)) (w : World) :
  wf_backlog b ->
  exists final w',
    ainvoke (create_workflow url) (initial_state b) w = (Ok final, w') /\
    slept w' = slept w + 3 + 3 * length b.
Proof.
  intros Hwf.
  destruct (costs_ainvoke sleeps_zero sleeps_add url (fun n => n) 0 0
              sleeps_print sleeps_sleep (sleeps_setup url)
              (fun a => sleeps_update url (registered a)) b Hwf w I)
    as (w' & Hrun & _ & Hslept).
  exists (after_building b), w'. split; [done|].
  unfold sleeps in Hslept. lia.
Qed.

Lemma run_sleeps_three_plus_one_per_task_witness :
  wf_backlog example_backlog /\
  exists final w',
    ainvoke (create_workflow "http://localhost:8787")
      (initial_state example_backlog)
      (fresh_world all_packages dashboard_down) = (Ok final, w') /\
    slept w' = slept (fresh_world all_packages dashboard_down) + 3
               + 3 * length example_backlog.
Proof.
  split.
  - repeat constructor; by eexists.
  - apply (run_sleeps_three_plus_one_per_task "http://localhost:8787"
             example_backlog).
    repeat constructor; by eexists.
Defined.

(** ** Requests sent *)

Lemma talks_zero w : talks 0 w w.
Proof. unfold talks. lia. Qed.

Lemma talks_add j k w w1 w2 :
  talks j w w1 -> talks k w1 w2 -> talks (j + k) w w2.
Proof. unfold talks. lia. Qed.

Section Traffic.

Variable inv : Collaborator -> Prop.

Lemma talks_print line :
  costs (fun w => inv (network w)) talks (print line) () 0.
Proof.
  intros w Hw. eexists. split; [reflexivity|]. split; [done|].
  unfold talks. simpl. lia.
Qed.

Lemma talks_sleep n :
  costs (fun w => inv (network w)) talks (sleep n) () 0.
Proof.
  intros w Hw. eexists. split; [reflexivity|]. split; [done|].
  unfold talks. simpl. lia.
Qed.

(** [setup] sends its one request whether or not it is answered. *)
Lemma talks_setup url a :
  costs (fun w => inv (network w)) talks (Agent_setup url a) (registered a) 1.
Proof.
  intros w Hw.
  unfold Agent_setup, try_except, bind, Agent_session_post, session_post,
    session_request, http_request, bare_except, print, ret, registered, talks.
  simpl. case_network; eexists; (split; [reflexivity|]); simpl;
    (split; [done|]); rewrite length_app; simpl; lia.
Qed.

End Traffic.

Ltac answered H :=
  repeat match goal with
    | |- context [network ?w ?sent ?req] =>
        let E := fresh "E" in
        destruct (H sent req) as [? E]; rewrite E; clear E; simpl
    end.

Lemma talks_update_reachable url a status message :
  costs (fun w => reachable (network w)) talks
    (Agent_update_dashboard url (registered a) status message) () 2.
Proof.
  intros w Hw.
  unfold Agent_update_dashboard, try_except, bind, Agent_session_post,
    session_post, session_request, http_request, bare_except, raise, ret,
    talks.
  simpl. answered Hw.
  eexists. split; [reflexivity|]. simpl. split; [done|].
  rewrite !length_app. simpl. lia.
Qed.

Lemma talks_update_unreachable url a status message :
  costs (fun w => unreachable (network w)) talks
    (Agent_update_dashboard url (registered a) status message) () 1.
Proof.
  intros w Hw.
  unfold Agent_update_dashboard, try_except, bind, Agent_session_post,
    session_post, session_request, http_request, bare_except, raise, ret,
    talks.
  simpl. answered Hw.
  eexists. split; [reflexivity|]. simpl. split; [done|].
  rewrite !length_app. simpl. lia.
Qed.

(** X2. With a dashboard that answers every request, a run on N well-formed
    items sends 3 + 12 * N requests: one registration per agent and, for each
    of the 3 * N tasks, two requests when it starts and two when it is done. *)
Theorem run_requests_when_reachable
    (url : string) (b : list (gmap string string)) (w : World) :
  wf_backlog b ->
  reachable (network w) ->
  exists final w',
    ainvoke (create_workflow url) (initial_state b) w = (Ok final, w') /\
    length (requests w') = length (requests w) + 3 + 12 * length b.
Proof.
  intros Hwf Hw.
  destruct (costs_ainvoke talks_zero talks_add url (fun _ => 0) 1 2
              (talks_print reachable) (talks_sleep reachable)
              (talks_setup reachable url) (talks_update_reachable url)
              b Hwf w Hw)
    as (w' & Hrun & _ & Htalks).
  exists (after_building b), w'. split; [done|].
  unfold talks in Htalks. lia.
Qed.

Lemma run_requests_when_reachable_witness :
  wf_backlog example_backlog /\
  reachable (network (fresh_world all_packages dashboard_up)) /\
  exists final w',
    ainvoke (create_workflow "http://localhost:8787")
      (initial_state example_backlog)
      (fresh_world all_packages dashboard_up) = (Ok final, w') /\
    length (requests w')
    = length (requests (fresh_world all_packages dashboard_up)) + 3
      + 12 * length example_backlog.
Proof.
  split; [repeat constructor; by eexists|].
  split; [intros sent req; by exists 200|].
  apply (run_requests_when_reachable "http://localhost:8787" example_backlog).
  - repeat constructor; by eexists.
  - intros sent req. by exists 200.
Defined.

(** X3. With every HTTP call failing, the same run sends 3 + 6 * N requests:
    [update_dashboard] gives up after its first failed request, so each
    update costs one request instead of two. *)
Theorem run_requests_when_unreachable
    (url : string) (b : list (gmap string string)) (w : World) :
  wf_backlog b ->
  unreachable (network w) ->
  exists final w',
    ainvoke (create_workflow url) (initial_state b) w = (Ok final, w') /\
    length (requests w') = length (requests w) + 3 + 6 * length b.
Proof.
  intros Hwf Hw.
  destruct (costs_ainvoke talks_zero talks_add url (fun _ => 0) 1 1
              (talks_print unreachable) (talks_sleep unreachable)
              (talks_setup unreachable url) (talks_update_unreachable url)
              b Hwf w Hw)
    as (w' & Hrun & _ & Htalks).
  exists (after_building b), w'. split; [done|].
  unfold talks in Htalks. lia.
Qed.

Lemma run_requests_when_unreachable_witness :
  wf_backlog example_backlog /\
  unreachable (network (fresh_world all_packages dashboard_down)) /\
  exists final w',
    ainvoke (create_workflow "http://localhost:8787")
      (initial_state example_backlog)
      (fresh_world all_packages dashboard_down) = (Ok final, w') /\
    length (requests w')
    = length (requests (fresh_world all_packages dashboard_down)) + 3
      + 6 * length example_backlog.
Proof.
  split; [repeat constructor; by eexists|].
  split; [intros sent req; by exists ConnectionRefused|].
  apply (run_requests_when_unreachable "http://localhost:8787" example_backlog).
  - repeat constructor; by eexists.
  - intros sent req. by exists ConnectionRefused.
Defined.

(** ** What a computation leaves alone, whatever its outcome *)

Section Keeping.

Context {R : World -> World -> Prop}.
Hypothesis R_refl : forall w, R w w.
Hypothesis R_trans : forall w1 w2 w3, R w1 w2 -> R w2 w3 -> R w1 w3.

Lemma keeps_ret {A} (a : A) : keeps R (ret a).
Proof. intros w. apply R_refl. Qed.

Lemma keeps_raise {A} e : keeps R (@raise A e).
Proof. intros w. apply R_refl. Qed.

Lemma keeps_bind {A B} (m : M A) (k : A -> M B) :
  keeps R m -> (forall a, keeps R (k a)) -> keeps R (bind m k).
Proof.
  intros Hm Hk w. unfold bind. specialize (Hm w).
  destruct (m w) as [[a|e] w1]; simpl in *; [|done].
  eapply R_trans; [exact Hm|apply Hk].
Qed.

Lemma keeps_try_except {A} (body : M A) handles handler :
  keeps R body -> (forall e, keeps R (handler e)) ->
  keeps R (try_except body handles handler).
Proof.
  intros Hbody Hhandler w. unfold try_except. specialize (Hbody w).
  destruct (body w) as [[a|e] w1]; simpl in *; [done|].
  destruct (handles e); [|done].
  eapply R_trans; [exact Hbody|apply Hhandler].
Qed.

Lemma keeps_for_each {A S} (body : A -> S -> M S) xs s :
  (forall x s, keeps R (body x s)) -> keeps R (for_each xs body s).
Proof.
  intros Hbody. revert s. induction xs as [|x xs IH]; intros s; simpl.
  - apply keeps_ret.
  - apply keeps_bind; [apply Hbody|apply IH].
Qed.

Lemma keeps_for_values {V} (body : V -> M V) d :
  (forall v, keeps R (body v)) -> keeps R (for_values d body).
Proof.
  intros Hbody. induction d as [|[key v] d IH]; simpl.
  - apply keeps_ret.
  - apply keeps_bind; [apply Hbody|]. intros v'.
    apply keeps_bind; [apply IH|]. intros d'. apply keeps_ret.
Qed.

Lemma keeps_getitem {V} (d : gmap string V) key : keeps R (getitem d key).
Proof. unfold getitem. destruct (d !! key); [apply keeps_ret|apply keeps_raise]. Qed.

Lemma keeps_odict_getitem {V} (d : list (string * V)) key :
  keeps R (odict_getitem d key).
Proof.
  unfold odict_getitem.
  destruct (odict_get d key); [apply keeps_ret|apply keeps_raise].
Qed.

Lemma keeps_run_from fuel g current s :
  (forall n node, odict_get (nodes g) n = Some node ->
                  forall s, keeps R (node s)) ->
  keeps R (run_from fuel g current s).
Proof.
  intros Hnodes. revert current s.
  induction fuel as [|fuel IH]; intros current s; simpl.
  - destruct (decide (current = END)); [apply keeps_ret|apply keeps_raise].
  - destruct (decide (current = END)); [apply keeps_ret|].
    destruct (odict_get (nodes g) current) as [node|] eqn:Hnode;
      [|apply keeps_raise].
    destruct (odict_get (edges g) current) as [next|];
      [|apply keeps_raise].
    apply keeps_bind; [by eapply Hnodes|]. intros u.
    apply keeps_bind; [apply IH|]. intros rest. apply keeps_ret.
Qed.

Lemma keeps_ainvoke g input :
  (forall n node, odict_get (nodes g) n = Some node ->
                  forall s, keeps R (node s)) ->
  keeps R (ainvoke g input).
Proof.
  intros Hnodes. unfold ainvoke, astream.
  apply keeps_bind; [|intros states; apply keeps_ret].
  destruct (entry_point g); [|apply keeps_raise].
  apply keeps_bind; [by apply keeps_run_from|].
  intros rest. apply keeps_ret.
Qed.

(** The framework, given what the primitive steps keep. *)

Variable base : string.
Hypothesis keeps_print : forall line, keeps R (print line).
Hypothesis keeps_sleep : forall n, keeps R (sleep n).
Hypothesis keeps_post :
  forall u body,
    u ∈ [ base +:+ "/api/agent/register"; base +:+ "/api/agent/update";
          base +:+ "/api/activity/post" ] ->
    keeps R (http_request {| method := POST; url := u; json := body |}).

Lemma keeps_Agent_session_post self u body :
  u ∈ [ base +:+ "/api/agent/register"; base +:+ "/api/agent/update";
        base +:+ "/api/activity/post" ] ->
  keeps R (Agent_session_post self u body).
Proof.
  intros Hu. unfold Agent_session_post, session_post, session_request.
  destruct (session self) as [[[|]]|]; simpl;
    [apply keeps_raise|by apply keeps_post|apply keeps_raise].
Qed.

Lemma keeps_Agent_setup self : keeps R (Agent_setup base self).
Proof.
  unfold Agent_setup.
  apply keeps_bind; [|intros; apply keeps_ret].
  apply keeps_try_except; [|intros; apply keeps_print].
  apply keeps_bind; [|intros; apply keeps_ret].
  apply keeps_Agent_session_post. set_solver.
Qed.

Lemma keeps_Agent_update_dashboard self status message :
  keeps R (Agent_update_dashboard base self status message).
Proof.
  unfold Agent_update_dashboard.
  apply keeps_try_except; [|intros; apply keeps_ret].
  apply keeps_bind; [apply keeps_Agent_session_post; set_solver|]. intros _.
  apply keeps_bind; [apply keeps_Agent_session_post; set_solver|]. intros _.
  apply keeps_ret.
Qed.

Lemma keeps_Agent_cleanup self : keeps R (Agent_cleanup self).
Proof.
  unfold Agent_cleanup, session_close.
  destruct (session self); [|apply keeps_ret].
  apply keeps_bind; [apply keeps_ret|]. intros s'. apply keeps_ret.
Qed.

Lemma keeps_planning_node st : keeps R (planning_node st).
Proof.
  unfold planning_node.
  apply keeps_bind; [apply keeps_print|]. intros _.
  apply keeps_bind.
  { apply keeps_for_each. intros item acc. unfold planning_item.
    repeat (apply keeps_bind; [apply keeps_getitem|]; intros ?).
    apply keeps_ret. }
  intros ts. apply keeps_bind; [apply keeps_print|]. intros _.
  apply keeps_ret.
Qed.

Lemma keeps_approval_node st : keeps R (approval_node st).
Proof.
  unfold approval_node.
  repeat (apply keeps_bind;
          [first [apply keeps_print|apply keeps_sleep]|]; intros _).
  apply keeps_ret.
Qed.

Lemma keeps_building_task agent task completed :
  keeps R (building_task base agent task completed).
Proof.
  unfold building_task.
  repeat (apply keeps_bind;
          [first [apply keeps_print|apply keeps_sleep
                 |apply keeps_Agent_update_dashboard]|]; intros _).
  apply keeps_ret.
Qed.

Lemma keeps_building_node st : keeps R (building_node base st).
Proof.
  unfold building_node.
  apply keeps_bind; [apply keeps_print|]. intros _.
  apply keeps_bind;
    [apply keeps_for_values; intros; apply keeps_Agent_setup|].
  intros agents.
  apply keeps_bind.
  { unfold plan_tasks. destruct (tasks (plan st));
      [apply keeps_ret|apply keeps_raise]. }
  intros ts. apply keeps_bind.
  { apply keeps_for_each. intros ty completed. unfold building_type.
    destruct (filter _ ts); [apply keeps_ret|].
    apply keeps_bind; [apply keeps_odict_getitem|]. intros agent.
    apply keeps_bind; [apply keeps_print|]. intros _.
    apply keeps_for_each. intros task c. apply keeps_building_task. }
  intros completed.
  apply keeps_bind;
    [apply keeps_for_values; intros; apply keeps_Agent_cleanup|].
  intros _. apply keeps_ret.
Qed.

Lemma keeps_workflow_nodes n node :
  odict_get (nodes (create_workflow base)) n = Some node ->
  forall s, keeps R (node s).
Proof.
  cbn [create_workflow nodes set_entry_point add_edge add_node StateGraph_new
       app odict_get].
  intros H s. repeat case_decide; try discriminate;
    injection H as <-.
  - apply keeps_planning_node.
  - apply keeps_approval_node.
  - apply keeps_building_node.
Qed.

Lemma keeps_run_iteration b : keeps R (run_iteration base b).
Proof.
  unfold run_iteration.
  apply keeps_bind; [apply keeps_print|]. intros _.
  apply keeps_bind.
  { apply keeps_ainvoke. apply keeps_workflow_nodes. }
  intros final.
  repeat (apply keeps_bind; [apply keeps_print|]; intros _).
  apply keeps_for_each. intros msg []. apply keeps_print.
Qed.

End Keeping.

(** ** Only the dashboard endpoints are contacted *)

Lemma extends_with_refl P w : extends_with P w w.
Proof.
  repeat split; try done.
  - exists []. by rewrite app_nil_r.
  - exists []. by rewrite app_nil_r.
Qed.

Lemma extends_with_trans P w1 w2 w3 :
  extends_with P w1 w2 -> extends_with P w2 w3 -> extends_with P w1 w3.
Proof.
  intros (Hp1 & He1 & Hd1 & Hn1 & (rs1 & Hr1 & HP1) & (o1 & Ho1) & Hs1)
         (Hp2 & He2 & Hd2 & Hn2 & (rs2 & Hr2 & HP2) & (o2 & Ho2) & Hs2).
  repeat split; try congruence; try lia.
  - exists (rs1 ++ rs2). split; [|by apply Forall_app].
    by rewrite Hr2, Hr1, app_assoc.
  - exists (o1 ++ o2). by rewrite Ho2, Ho1, app_assoc.
Qed.

Lemma extends_with_print P line : keeps (extends_with P) (print line).
Proof.
  intros w. repeat split; simpl; try done.
  - exists []. by rewrite app_nil_r.
  - by exists [line].
Qed.

Lemma extends_with_sleep P n : keeps (extends_with P) (sleep n).
Proof.
  intros w. repeat split; simpl; try done; try lia.
  - exists []. by rewrite app_nil_r.
  - exists []. by rewrite app_nil_r.
Qed.

Lemma extends_with_http (P : Request -> Prop) req :
  P req -> keeps (extends_with P) (http_request req).
Proof.
  intros HP w. unfold http_request.
  destruct (network w (requests w) req); repeat split; simpl; try done.
  - exists [req]. split; [done|]. by constructor.
  - exists []. by rewrite app_nil_r.
  - exists [req]. split; [done|]. by constructor.
  - exists []. by rewrite app_nil_r.
Qed.

Lemma run_iteration_extends url b :
  keeps (extends_with (dashboard_post url)) (run_iteration url b).
Proof.
  apply (keeps_run_iteration (extends_with_refl _) (extends_with_trans _) url
           (extends_with_print _) (extends_with_sleep _)).
  intros u body Hu. apply extends_with_http. by split.
Qed.

(** X4. Whatever the backlog and whether the run returns or raises,
    [run_iteration] sends nothing but POST requests to the three dashboard
    endpoints under COORDINATOR_URL, only appends to the output, and leaves
    the installed packages, the environment and the [.env] file alone. *)
Theorem run_iteration_only_posts_to_dashboard
    (url : string) (b : list (gmap string string)) (w : World) :
  extends_with (dashboard_post url) w (run_iteration url b w).2.
Proof. apply run_iteration_extends. Qed.

(** ** What [run_iteration] reports *)

Lemma print_lines (f : string -> string) msgs w :
  exists w',
    for_each msgs (fun msg (_ : unit) => print (f msg)) () w = (Ok (), w') /\
    stdout w' = stdout w ++ (f <$> msgs).
Proof.
  revert w. induction msgs as [|msg msgs IH]; intros w; simpl.
  - exists w. by rewrite app_nil_r.
  - unfold bind at 1. simpl.
    edestruct IH as (w' & H & Hout).
    exists w'. split; [exact H|]. rewrite Hout. simpl. by rewrite <- app_assoc.
Qed.

Lemma always_returns_run_iteration url b :
  wf_backlog b -> always_returns (run_iteration url b) ().
Proof.
  intros Hwf. unfold run_iteration.
  eapply always_returns_bind; [apply always_returns_print|].
  eapply always_returns_bind; [by apply ainvoke_workflow|].
  eapply always_returns_bind; [apply always_returns_print|].
  eapply always_returns_bind; [apply always_returns_print|].
  eapply always_returns_bind; [apply always_returns_print|].
  intros w. destruct (print_lines (fun msg => "  • " +:+ msg)
                        (messages (after_building b)) w) as (w' & H & _).
  by exists w'.
Qed.

(** X5. On a backlog of N well-formed items [run_iteration] returns; its
    output starts with the start line and ends with the summary: the number
    of completed tasks, 3 * N, and the three log messages. *)
Theorem run_iteration_reports_all_tasks
    (url : string) (b : list (gmap string string)) (w : World) :
  wf_backlog b ->
  exists w' out,
    run_iteration url b w = (Ok (), w') /\
    stdout w' =
      stdout w ++ ["🚀 Starting iteration..."] ++ out
      ++ [ nl +:+ "✨ ITERATION COMPLETE!";
           "Completed tasks: " +:+ pretty (3 * length b);
           nl +:+ "Iteration log:";
           "  • Created plan with " +:+ pretty (3 * length b) +:+ " tasks";
           "  • Plan approved by product owner";
           "  • Completed " +:+ pretty (3 * length b) +:+ " tasks" ].
Proof.
  intros Hwf. unfold run_iteration.
  destruct (always_returns_print "🚀 Starting iteration..." w) as [w0 H0].
  rewrite (bind_ok _ _ _ _ _ H0).
  assert (stdout w0 = stdout w ++ ["🚀 Starting iteration..."]) as Hout0
    by (injection H0 as <-; reflexivity).
  destruct (ainvoke_workflow url b Hwf w0) as [w1 H1].
  rewrite (bind_ok _ _ _ _ _ H1).
  pose proof (keeps_ainvoke (extends_with_refl (fun _ => True))
                (extends_with_trans _) (create_workflow url)
                (initial_state b)
                (keeps_workflow_nodes (extends_with_refl _)
                   (extends_with_trans _) url (extends_with_print _)
                   (extends_with_sleep _)
                   (fun u body _ => extends_with_http _ _ I)) w0) as Hext.
  rewrite H1 in Hext. destruct Hext as (_ & _ & _ & _ & _ & (out & Hout1) & _).
  simpl in Hout1.
  unfold bind at 1. simpl. unfold bind at 1. simpl. unfold bind at 1. simpl.
  edestruct (print_lines (fun msg => "  • " +:+ msg)
               (messages (after_building b))) as (w' & H & Hout).
  exists w', out. split; [exact H|].
  rewrite Hout. simpl. rewrite Hout1, Hout0.
  rewrite length_completed_of by apply tasks_of_backlog_assignees.
  rewrite length_tasks_of_backlog by done.
  by rewrite <- !app_assoc.
Qed.

Lemma run_iteration_reports_all_tasks_witness :
  wf_backlog test_backlog /\
  exists w' out,
    run_iteration "http://localhost:8787" test_backlog
      (fresh_world all_packages dashboard_down) = (Ok (), w') /\
    stdout w' =
      stdout (fresh_world all_packages dashboard_down)
      ++ ["🚀 Starting iteration..."] ++ out
      ++ [ nl +:+ "✨ ITERATION COMPLETE!";
           "Completed tasks: " +:+ pretty (3 * length test_backlog);
           nl +:+ "Iteration log:";
           "  • Created plan with " +:+ pretty (3 * length test_backlog)
             +:+ " tasks";
           "  • Plan approved by product owner";
           "  • Completed " +:+ pretty (3 * length test_backlog) +:+ " tasks" ].
Proof.
  split.
  - repeat constructor; by eexists.
  - apply (run_iteration_reports_all_tasks "http://localhost:8787"
             test_backlog).
    repeat constructor; by eexists.
Defined.

(** ** The scripts as a whole *)

Lemma dependencies_installed_extends P w w' :
  extends_with P w w' -> dependencies_installed w -> dependencies_installed w'.
Proof. intros (Hp & _). unfold dependencies_installed. by rewrite Hp. Qed.

Lemma succeeds_ret {A} inv (a : A) : succeeds inv (ret a).
Proof. intros w Hw. by exists a, w. Qed.

Lemma succeeds_bind {A B} inv (m : M A) (k : A -> M B) :
  succeeds inv m -> (forall a, succeeds inv (k a)) -> succeeds inv (bind m k).
Proof.
  intros Hm Hk w Hw. destruct (Hm w Hw) as (a & w1 & H1 & Hw1).
  destruct (Hk a w1 Hw1) as (b & w2 & H2 & Hw2).
  exists b, w2. by rewrite (bind_ok _ _ _ _ _ H1).
Qed.

Lemma succeeds_returns_keeps {A} P (m : M A) a :
  always_returns m a -> keeps (extends_with P) m ->
  succeeds dependencies_installed m.
Proof.
  intros Hret Hkeeps w Hw. destruct (Hret w) as [w' H].
  exists a, w'. split; [done|].
  specialize (Hkeeps w). rewrite H in Hkeeps.
  by eapply dependencies_installed_extends.
Qed.

Lemma succeeds_print line : succeeds dependencies_installed (print line).
Proof.
  eapply succeeds_returns_keeps;
    [apply always_returns_print|apply (extends_with_print (fun _ => True))].
Qed.

Lemma succeeds_try_bare {A} P (body : M A) handler :
  keeps (extends_with P) body ->
  (forall e, succeeds dependencies_installed (handler e)) ->
  succeeds dependencies_installed (try_except body bare_except handler).
Proof.
  intros Hbody Hhandler w Hw. unfold try_except. specialize (Hbody w).
  destruct (body w) as [[a|e] w1]; simpl in *.
  - exists a, w1. split; [done|]. by eapply dependencies_installed_extends.
  - apply Hhandler. by eapply dependencies_installed_extends.
Qed.

Lemma succeeds_import name :
  name ∈ ["langgraph"; "aiohttp"; "dotenv"] ->
  succeeds dependencies_installed (import_module name).
Proof.
  intros Hname w Hw. unfold import_module.
  rewrite decide_True; [by exists (), w|].
  destruct Hw as (H1 & H2 & H3).
  rewrite !elem_of_cons, elem_of_nil in Hname.
  by destruct Hname as [->|[->|[->|[]]]].
Qed.

Lemma succeeds_load_dotenv : succeeds dependencies_installed load_dotenv.
Proof. intros w Hw. by eexists _, _. Qed.

Lemma succeeds_getenv key : succeeds dependencies_installed (getenv key).
Proof. intros w Hw. by eexists _, _. Qed.

Lemma succeeds_import_simple_agent_framework :
  succeeds dependencies_installed import_simple_agent_framework.
Proof.
  unfold import_simple_agent_framework.
  apply succeeds_bind; [apply succeeds_import; set_solver|]. intros _.
  apply succeeds_bind; [apply succeeds_import; set_solver|]. intros _.
  apply succeeds_bind; [apply succeeds_import; set_solver|]. intros _.
  apply succeeds_bind; [apply succeeds_load_dotenv|]. intros _.
  apply succeeds_bind; [|intros u].
  { intros w Hw. by eexists _, _. }
  apply succeeds_bind; [apply succeeds_getenv|]. intros _.
  apply succeeds_ret.
Qed.

Lemma succeeds_run_iteration url b :
  wf_backlog b -> succeeds dependencies_installed (run_iteration url b).
Proof.
  intros Hwf. eapply succeeds_returns_keeps.
  - by apply always_returns_run_iteration.
  - apply run_iteration_extends.
Qed.

Lemma succeeds_test_setup : succeeds dependencies_installed test_setup.
Proof.
  unfold test_setup.
  apply succeeds_bind; [apply succeeds_print|]. intros _.
  apply succeeds_bind; [apply succeeds_getenv|]. intros configured.
  apply succeeds_bind.
  { destruct configured as [[|c u]|];
      repeat (apply succeeds_bind; [apply succeeds_print|]; intros _);
      apply succeeds_ret. }
  intros coordinator_url.
  apply succeeds_bind; [apply succeeds_print|]. intros _.
  apply succeeds_bind.
  { apply (succeeds_try_bare (fun _ => True)).
    - apply (keeps_bind (extends_with_trans _)).
      + by apply extends_with_http.
      + intros status. case_decide.
        * repeat (apply (keeps_bind (extends_with_trans _));
                  [apply extends_with_print|]; intros _).
          apply (keeps_ret (extends_with_refl _)).
        * apply (keeps_ret (extends_with_refl _)).
    - intros e. apply succeeds_bind; [apply succeeds_print|]. intros _.
      apply succeeds_ret. }
  intros dashboard_available.
  apply succeeds_bind; [apply succeeds_print|]. intros _.
  apply succeeds_bind; [apply succeeds_print|]. intros _.
  apply succeeds_bind; [apply succeeds_import_simple_agent_framework|].
  intros COORDINATOR_URL.
  apply succeeds_bind;
    [apply succeeds_run_iteration, wf_test_backlog|]. intros _.
  apply succeeds_bind; [apply succeeds_print|]. intros _.
  apply succeeds_bind; [apply succeeds_print|]. intros _.
  apply succeeds_bind.
  { destruct dashboard_available;
      repeat (apply succeeds_bind; [apply succeeds_print|]; intros _);
      apply succeeds_print. }
  intros _. apply succeeds_print.
Qed.

(** X6. With langgraph, aiohttp and dotenv installed, the quick-start script
    runs to its end and exits with status 0, whatever the environment holds
    and whatever the dashboard service does. *)
Theorem quickstart_exits_zero_when_installed (w : World) :
  dependencies_installed w ->
  exists w', quickstart w = (Ok (), w') /\ python quickstart w = (0, w').
Proof.
  intros Hw.
  assert (succeeds dependencies_installed quickstart) as Hq.
  { unfold quickstart.
    apply succeeds_bind.
    { intros w0 (H1 & H2 & H3). exists (), w0.
      by rewrite quickstart_imports_present. }
    intros _.
    apply succeeds_bind; [apply succeeds_load_dotenv|]. intros _.
    apply succeeds_bind; [apply succeeds_print|]. intros _.
    apply succeeds_bind; [apply succeeds_print|]. intros _.
    apply succeeds_test_setup. }
  destruct (Hq w Hw) as ([] & w' & Hrun & _).
  exists w'. split; [done|]. unfold python. by rewrite Hrun.
Qed.

Lemma quickstart_exits_zero_when_installed_witness :
  let w := fresh_world all_packages dashboard_down in
  dependencies_installed w /\
  exists w', quickstart w = (Ok (), w') /\ python quickstart w = (0, w').
Proof.
  intros w.
  assert (dependencies_installed w) as Hw
    by (repeat split; apply (bool_decide_unpack _); vm_compute; exact I).
  split; [exact Hw|].
  exact (quickstart_exits_zero_when_installed w Hw).
Defined.

Lemma main_after_status_probe url w :
  main url w = run_iteration url example_backlog (after_status_probe url w).
Proof.
  unfold main, after_status_probe, status_line, status_probe.
  unfold bind at 1. unfold print at 1. cbn beta iota.
  unfold bind at 1.
  unfold try_except, bind at 1, session_get, session_request, http_request,
    bare_except, print.
  cbn [closed new_ClientSession packages environ dotenv_file network requests
       stdout slept].
  destruct (network w (requests w) _) as [status|f]; cbn beta iota;
    [case_decide|]; cbn beta iota;
    apply (f_equal (run_iteration url example_backlog));
    cbn [packages environ dotenv_file network requests stdout slept];
    rewrite <- app_assoc; reflexivity.
Qed.

(** X7. [main] of the framework never raises.  It prints the probe banner,
    sends one GET to [/api/iteration/status], and prints one line that tells
    how the probe went: connected on status 200, not responding on any other
    status, not available when the call fails.  Whatever that line is,
    [main] then does exactly what [run_iteration] does on the example backlog
    of two items, and returns. *)
Theorem main_never_raises (url : string) (w : World) :
  exists w' out,
    main url w = (Ok (), w') /\
    main url w = run_iteration url example_backlog (after_status_probe url w) /\
    requests (after_status_probe url w)
      = requests w ++ [status_probe url] /\
    stdout (after_status_probe url w)
      = stdout w
        ++ [ "🔗 Testing dashboard connection...";
             status_line (network w (requests w) (status_probe url)) ] /\
    slept (after_status_probe url w) = slept w /\
    stdout w'
      = stdout w
        ++ [ "🔗 Testing dashboard connection...";
             status_line (network w (requests w) (status_probe url)) ]
        ++ out.
Proof.
  destruct (always_returns_run_iteration url example_backlog
              wf_example_backlog (after_status_probe url w)) as [w' Hrun].
  pose proof (run_iteration_extends url example_backlog
                (after_status_probe url w)) as Hext.
  rewrite Hrun in Hext.
  destruct Hext as (_ & _ & _ & _ & _ & (out & Hout) & _).
  exists w', out.
  split; [by rewrite main_after_status_probe|].
  split; [apply main_after_status_probe|].
  split; [done|]. split; [done|]. split; [done|].
  simpl in Hout. by rewrite Hout, <- app_assoc.
Qed.

(** X8. The COORDINATOR_URL the framework uses is the value in the process
    environment if there is one, else the value in the [.env] file, else
    [http://localhost:8787]. *)
Theorem coordinator_url_precedence (w : World) :
  dependencies_installed w ->
  exists w',
    import_simple_agent_framework w =
      (Ok match environ w !! "COORDINATOR_URL" with
          | Some u => u
          | None =>
              match dotenv_file w !! "COORDINATOR_URL" with
              | Some u => u
              | None => "http://localhost:8787"
              end
          end, w').
Proof.
  intros (H1 & H2 & H3).
  unfold import_simple_agent_framework, bind, import_module.
  rewrite !decide_True by done. simpl.
  rewrite lookup_union.
  destruct (environ w !! "COORDINATOR_URL"),
    (dotenv_file w !! "COORDINATOR_URL"); simpl; eexists; reflexivity.
Qed.

Lemma coordinator_url_precedence_witness :
  let w := {| packages := all_packages;
              environ := {[ "COORDINATOR_URL" := "http://from.environ" ]};
              dotenv_file := {[ "COORDINATOR_URL" := "http://from.dotenv" ]};
              network := dashboard_down; requests := []; stdout := [];
              slept := 0 |} in
  dependencies_installed w /\
  exists w', import_simple_agent_framework w = (Ok "http://from.environ", w').
Proof.
  intros w.
  assert (dependencies_installed w) as Hw
    by (repeat split; apply (bool_decide_unpack _); vm_compute; exact I).
  split; [exact Hw|].
  exact (coordinator_url_precedence w Hw).
Defined.

(** ** An item that planning cannot use *)

Lemma planning_item_missing item acc w :
  ~ wf_item item ->
  planning_item item acc w = (Raise (KeyError (missing_key item)), w).
Proof.
  intros Hill. unfold planning_item, getitem, bind, missing_key, wf_item in *.
  destruct (item !! "id") as [i|]; simpl; [|done].
  destruct (item !! "title") as [t|]; simpl; [|done].
  exfalso. apply Hill. eauto.
Qed.

Lemma planning_loop_ill good bad rest acc w :
  wf_backlog good -> ~ wf_item bad ->
  for_each (good ++ bad :: rest) planning_item acc w
  = (Raise (KeyError (missing_key bad)), w).
Proof.
  intros Hgood Hbad. revert acc.
  induction Hgood as [|item good Hitem _ IH]; intros acc; simpl.
  - by rewrite (bind_raise _ _ _ _ _ (planning_item_missing bad acc w Hbad)).
  - rewrite (bind_ok _ _ _ _ _ (planning_item_wf item acc w Hitem)).
    apply IH.
Qed.

Lemma planning_node_ill st good bad rest w :
  backlog st = good ++ bad :: rest ->
  wf_backlog good -> ~ wf_item bad ->
  planning_node st w
  = (Raise (KeyError (missing_key bad)),
     (print (nl +:+ "🎯 PLANNING PHASE") w).2).
Proof.
  intros Hb Hgood Hbad. unfold planning_node. rewrite Hb.
  unfold bind at 1. simpl.
  by erewrite bind_raise by (by apply planning_loop_ill).
Qed.

Lemma run_from_node_raise fuel g current next node s e w w' :
  current <> END ->
  odict_get (nodes g) current = Some node ->
  odict_get (edges g) current = Some next ->
  node s w = (Raise e, w') ->
  run_from (S fuel) g current s w = (Raise e, w').
Proof.
  intros Hne Hnode Hedge Hraise. simpl.
  rewrite decide_False by done. rewrite Hnode, Hedge.
  by rewrite (bind_raise _ _ _ _ _ Hraise).
Qed.

(** X9. The first backlog item without an id or a title makes
    [planning_node], and with it the whole run, raise [KeyError] for the
    missing key ("id" before "title"): only the planning banner has been
    printed, no request was sent and no time was slept. *)
Theorem ill_formed_item_aborts_run
    (url : string) (good : list (gmap string string))
    (bad : gmap string string) (rest : list (gmap string string))
    (w : World) :
  wf_backlog good ->
  ~ wf_item bad ->
  exists w',
    planning_node (initial_state (good ++ bad :: rest)) w
      = (Raise (KeyError (missing_key bad)), w') /\
    ainvoke (create_workflow url) (initial_state (good ++ bad :: rest)) w
      = (Raise (KeyError (missing_key bad)), w') /\
    stdout w' = stdout w ++ [nl +:+ "🎯 PLANNING PHASE"] /\
    requests w' = requests w /\
    slept w' = slept w.
Proof.
  intros Hgood Hbad.
  pose proof (planning_node_ill (initial_state (good ++ bad :: rest))
                good bad rest w eq_refl Hgood Hbad) as Hplan.
  eexists. split; [exact Hplan|]. split; [|done].
  unfold ainvoke, astream.
  cbn [create_workflow entry_point set_entry_point add_edge add_node
       StateGraph_new].
  unfold recursion_limit.
  erewrite bind_raise; [reflexivity|].
  erewrite bind_raise; [reflexivity|].
  eapply run_from_node_raise; [done|reflexivity|reflexivity|exact Hplan].
Qed.

Lemma ill_formed_item_aborts_run_witness :
  let good := [ {[ "id" := "FEAT-001"; "title" := "User Login API" ]} ] in
  let bad : gmap string string := {[ "id" := "FEAT-003" ]} in
  let w := fresh_world all_packages dashboard_up in
  wf_backlog good /\
  ~ wf_item bad /\
  exists w',
    ainvoke (create_workflow "http://localhost:8787")
      (initial_state (good ++ bad :: example_backlog)) w
      = (Raise (KeyError "title"), w') /\
    stdout w' = stdout w ++ [nl +:+ "🎯 PLANNING PHASE"] /\
    requests w' = requests w /\
    slept w' = slept w.
Proof.
  intros good bad w.
  assert (wf_backlog good) as Hgood by (repeat constructor; by eexists).
  assert (~ wf_item bad) as Hbad.
  { intros [_ [t Ht]]. vm_compute in Ht. discriminate. }
  split; [exact Hgood|]. split; [exact Hbad|].
  destruct (ill_formed_item_aborts_run "http://localhost:8787" good bad
              example_backlog w Hgood Hbad) as (w' & _ & Hrun & Hrest).
  exists w'. split; [exact Hrun|exact Hrest].
Defined.

(** ** The requests of an agent *)

Lemma Agent_setup_spec url a w :
  exists w',
    Agent_setup url a w = (Ok (registered a), w') /\
    network w' = network w /\
    requests w' = requests w ++ [register_request url a] /\
    stdout w' =
      stdout w
      ++ match network w (requests w) (register_request url a) with
         | Responded _ => []
         | Failed _ =>
             ["Warning: Could not register " +:+ name a +:+ " with dashboard"]
         end /\
    slept w' = slept w.
Proof.
  unfold Agent_setup, try_except, bind, Agent_session_post, session_post,
    session_request, http_request, bare_except, print, ret, registered,
    register_request.
  simpl. destruct (network w (requests w) _); simpl;
    eexists; (split; [reflexivity|]); simpl; rewrite ?app_nil_r; done.
Qed.

(** X10. [Agent.setup] replaces the session of the agent by a fresh open one
    and sends exactly one request, the registration; it prints its warning
    when the call fails and nothing when the service answers, with whatever
    status. *)
Theorem setup_registers_once (url : string) (a : Agent) (w : World) :
  exists a' w',
    Agent_setup url a w = (Ok a', w') /\
    name a' = name a /\ role a' = role a /\
    session a' = Some {| closed := false |} /\
    requests w' = requests w ++ [register_request url a] /\
    stdout w' =
      stdout w
      ++ match network w (requests w) (register_request url a) with
         | Responded _ => []
         | Failed _ =>
             ["Warning: Could not register " +:+ name a +:+ " with dashboard"]
         end /\
    slept w' = slept w.
Proof.
  destruct (Agent_setup_spec url a w) as (w' & H & _ & Hrest).
  by exists (registered a), w'.
Qed.

(** X11. With an open session [Agent.update_dashboard] sends the status update
    and then, only if that request was answered, the activity post; a failure
    of either is swallowed, and nothing is printed. *)
Theorem update_dashboard_requests
    (url : string) (a : Agent) (status message : string) (w : World) :
  session a = Some {| closed := false |} ->
  exists w',
    Agent_update_dashboard url a status message w = (Ok (), w') /\
    requests w' =
      requests w
      ++ match network w (requests w) (update_request url a status message) with
         | Responded _ =>
             [update_request url a status message;
              activity_request url a message]
         | Failed _ => [update_request url a status message]
         end /\
    stdout w' = stdout w /\
    slept w' = slept w.
Proof.
  intros Hopen.
  unfold Agent_update_dashboard, try_except, bind, Agent_session_post,
    session_post, session_request, http_request, bare_except, raise, ret,
    update_request, activity_request.
  rewrite Hopen. simpl.
  destruct (network w (requests w) _); simpl; [|by eexists].
  destruct (network w _ _); simpl; eexists;
    (split; [reflexivity|]); simpl; by rewrite <- app_assoc.
Qed.

Lemma update_dashboard_requests_witness :
  let a := registered (Agent_init "QA Engineer" "tester") in
  let w := fresh_world all_packages dashboard_down in
  session a = Some {| closed := false |} /\
  exists w',
    Agent_update_dashboard "http://localhost:8787" a "busy" "Working" w
      = (Ok (), w') /\
    requests w' = [update_request "http://localhost:8787" a "busy" "Working"].
Proof.
  intros a w. split; [reflexivity|].
  destruct (update_dashboard_requests "http://localhost:8787" a "busy"
              "Working" w eq_refl) as (w' & H & Hreq & _).
  exists w'. split; [exact H|exact Hreq].
Defined.

(** X12. On an agent that was never set up, or whose session was closed by
    [cleanup], [Agent.update_dashboard] returns without sending anything:
    the world is unchanged. *)
Theorem update_dashboard_without_open_session
    (url : string) (a : Agent) (status message : string) (w : World) :
  session a = None \/ session a = Some {| closed := true |} ->
  Agent_update_dashboard url a status message w = (Ok (), w).
Proof.
  intros [Hs|Hs];
    unfold Agent_update_dashboard, try_except, bind, Agent_session_post,
      session_post, session_request;
    rewrite Hs; reflexivity.
Qed.

Lemma update_dashboard_without_open_session_witness :
  let a := cleaned (registered (Agent_init "QA Engineer" "tester")) in
  let w := fresh_world all_packages dashboard_up in
  (session a = None \/ session a = Some {| closed := true |}) /\
  Agent_update_dashboard "http://localhost:8787" a "idle" "Completed" w
    = (Ok (), w).
Proof.
  intros a w.
  assert (session a = None \/ session a = Some {| closed := true |}) as Hs
    by (right; reflexivity).
  split; [exact Hs|].
  exact (update_dashboard_without_open_session "http://localhost:8787" a
           "idle" "Completed" w Hs).
Defined.

(** ** Building without a plan *)

Lemma for_values_setup url (d : list (string * Agent)) w :
  exists w',
    for_values d (Agent_setup url) w
      = (Ok (prod_map id registered <$> d), w') /\
    requests w' = requests w ++ ((fun kv => register_request url kv.2) <$> d) /\
    slept w' = slept w.
Proof.
  revert w. induction d as [|[key a] d IH]; intros w; simpl.
  - exists w. by rewrite app_nil_r.
  - destruct (Agent_setup_spec url a w) as (w1 & H1 & _ & Hr1 & _ & Hs1).
    rewrite (bind_ok _ _ _ _ _ H1).
    destruct (IH w1) as (w2 & H2 & Hr2 & Hs2).
    rewrite (bind_ok _ _ _ _ _ H2).
    exists w2. split; [reflexivity|].
    rewrite Hr2, Hr1, Hs2, Hs1. by rewrite <- app_assoc.
Qed.

(** X13. On a state whose plan has no tasks entry, as the initial state has,
    [building_node] registers its three agents and then raises
    [KeyError "tasks"]: three requests have been sent, nothing was slept, and
    no update is returned. *)
Theorem building_without_plan_raises
    (url : string) (st : IterationState) (w : World) :
  tasks (plan st) = None ->
  exists w',
    building_node url st w = (Raise (KeyError "tasks"), w') /\
    requests w' =
      requests w
      ++ [ register_request url (Agent_init "Backend SWE" "engineer");
           register_request url (Agent_init "Frontend SWE" "engineer");
           register_request url (Agent_init "QA Engineer" "tester") ] /\
    slept w' = slept w.
Proof.
  intros Hplan. unfold building_node.
  destruct (always_returns_print (nl +:+ "🔨 BUILDING PHASE") w) as [w0 H0].
  rewrite (bind_ok _ _ _ _ _ H0).
  edestruct (for_values_setup url) as (w1 & H1 & Hr1 & Hs1).
  rewrite (bind_ok _ _ _ _ _ H1).
  unfold plan_tasks. rewrite Hplan.
  exists w1. split; [reflexivity|].
  rewrite Hr1, Hs1. injection H0 as <-. done.
Qed.

Lemma building_without_plan_raises_witness :
  let st := initial_state example_backlog in
  let w := fresh_world all_packages dashboard_down in
  tasks (plan st) = None /\
  exists w',
    building_node "http://localhost:8787" st w
      = (Raise (KeyError "tasks"), w') /\
    length (requests w') = 3 /\
    slept w' = 0.
Proof.
  intros st w. split; [reflexivity|].
  destruct (building_without_plan_raises "http://localhost:8787" st w eq_refl)
    as (w' & H & Hreq & Hslept).
  exists w'. split; [exact H|]. split; [by rewrite Hreq|exact Hslept].
Defined.

(** ** The completed ids in terms of the backlog *)

Lemma tasks_for_app ty ts1 ts2 :
  tasks_for ty (ts1 ++ ts2) = tasks_for ty ts1 ++ tasks_for ty ts2.
Proof. apply filter_app. Qed.

Lemma tasks_for_item_tasks feature_id t1 t2 t3 :
  task_id <$> tasks_for "backend" (item_tasks feature_id t1 t2 t3)
    = [feature_id +:+ "-backend"] /\
  task_id <$> tasks_for "frontend" (item_tasks feature_id t1 t2 t3)
    = [feature_id +:+ "-frontend"] /\
  task_id <$> tasks_for "qa" (item_tasks feature_id t1 t2 t3)
    = [feature_id +:+ "-tests"].
Proof.
  unfold item_tasks. split; [|split].
  - rewrite tasks_for_cons_eq by done. by rewrite !tasks_for_cons_ne by done.
  - rewrite tasks_for_cons_ne by done. rewrite tasks_for_cons_eq by done.
    by rewrite tasks_for_cons_ne by done.
  - rewrite !tasks_for_cons_ne by done. by rewrite tasks_for_cons_eq by done.
Qed.

Lemma ids_for_backlog b :
  wf_backlog b ->
  task_id <$> tasks_for "backend" (tasks_of_backlog b)
    = (fun i => i +:+ "-backend") <$> feature_ids b /\
  task_id <$> tasks_for "frontend" (tasks_of_backlog b)
    = (fun i => i +:+ "-frontend") <$> feature_ids b /\
  task_id <$> tasks_for "qa" (tasks_of_backlog b)
    = (fun i => i +:+ "-tests") <$> feature_ids b.
Proof.
  unfold tasks_of_backlog, feature_ids.
  induction 1 as [|item b [[i Hi] [t Ht]] _ (IH1 & IH2 & IH3)]; [done|].
  rewrite fmap_cons, concat_cons, !tasks_for_app, !fmap_app, IH1, IH2, IH3.
  cbn [omap list_omap]. unfold tasks_of_item. rewrite Hi, Ht.
  destruct (tasks_for_item_tasks i t t t) as (-> & -> & ->).
  done.
Qed.

(** X14. After a run on a well-formed backlog the completed tasks are, in this
    order, the backend ids of all items, the frontend ids of all items and
    the tests ids of all items, each in backlog order. *)
Theorem completed_ids_by_role
    (url : string) (b : list (gmap string string)) (w : World) :
  wf_backlog b ->
  exists final w',
    ainvoke (create_workflow url) (initial_state b) w = (Ok final, w') /\
    completed_tasks final =
      ((fun i => i +:+ "-backend") <$> feature_ids b)
      ++ ((fun i => i +:+ "-frontend") <$> feature_ids b)
      ++ ((fun i => i +:+ "-tests") <$> feature_ids b) /\
    length (feature_ids b) = length b.
Proof.
  intros Hwf. destruct (ainvoke_workflow url b Hwf w) as [w' H].
  exists (after_building b), w'. split; [done|]. split.
  - destruct (ids_for_backlog b Hwf) as (H1 & H2 & H3).
    simpl. unfold completed_of. by rewrite H1, H2, H3.
  - unfold feature_ids. clear H.
    induction Hwf as [|item b [[i Hi] _] _ IH]; [done|].
    cbn [omap list_omap]. rewrite Hi. simpl. by rewrite IH.
Qed.

Lemma completed_ids_by_role_witness :
  wf_backlog example_backlog /\
  exists final w',
    ainvoke (create_workflow "http://localhost:8787")
      (initial_state example_backlog)
      (fresh_world all_packages dashboard_up) = (Ok final, w') /\
    completed_tasks final =
      ((fun i => i +:+ "-backend") <$> feature_ids example_backlog)
      ++ ((fun i => i +:+ "-frontend") <$> feature_ids example_backlog)
      ++ ((fun i => i +:+ "-tests") <$> feature_ids example_backlog) /\
    length (feature_ids example_backlog) = length example_backlog.
Proof.
  split.
  - repeat constructor; by eexists.
  - apply (completed_ids_by_role "http://localhost:8787" example_backlog).
    repeat constructor; by eexists.
Defined.

(** ** Distinct features give distinct tasks *)

Lemma append_suffix_inj (s a b : string) : a +:+ s = b +:+ s -> a = b.
Proof.
  revert b. induction a as [|c a IH]; intros [|c' b] H; simpl in H.
  - done.
  - apply (f_equal String.length) in H.
    rewrite !string_length_app in H. simpl in H. lia.
  - apply (f_equal String.length) in H.
    rewrite !string_length_app in H. simpl in H. lia.
  - injection H as -> H. by rewrite (IH b H).
Qed.

Lemma str_last_app (a s : string) :
  s <> "" -> str_last (a +:+ s) = str_last s.
Proof.
  intros Hs. induction a as [|c a IH]; [done|].
  simpl. rewrite IH.
  destruct (a +:+ s) eqn:E; [|done].
  destruct a; simpl in E; [done|discriminate].
Qed.

Lemma backend_id_ne_tests_id (a b : string) :
  a +:+ "-backend" <> b +:+ "-tests".
Proof.
  intros H. apply (f_equal str_last) in H.
  rewrite !str_last_app in H by done. discriminate.
Qed.

Lemma frontend_id_ne_tests_id (a b : string) :
  a +:+ "-frontend" <> b +:+ "-tests".
Proof.
  intros H. apply (f_equal str_last) in H.
  rewrite !str_last_app in H by done. discriminate.
Qed.

Lemma NoDup_role_ids ids :
  NoDup ids ->
  NoDup (((fun i => i +:+ "-backend") <$> ids)
         ++ ((fun i => i +:+ "-frontend") <$> ids)
         ++ ((fun i => i +:+ "-tests") <$> ids)).
Proof.
  intros Hids.
  assert (forall s, NoDup ((fun i => i +:+ s) <$> ids)) as Hsuffix.
  { intros s. apply NoDup_fmap_2; [|done].
    intros x y. apply append_suffix_inj. }
  apply NoDup_app. split; [apply Hsuffix|]. split.
  - intros x Hx Hin.
    apply list_elem_of_fmap in Hx as (i & -> & _).
    apply elem_of_app in Hin as [Hin|Hin];
      apply list_elem_of_fmap in Hin as (j & Hj & _).
    + by apply backend_id_ne_frontend_id in Hj.
    + by apply backend_id_ne_tests_id in Hj.
  - apply NoDup_app. split; [apply Hsuffix|]. split; [|apply Hsuffix].
    intros x Hx Hin.
    apply list_elem_of_fmap in Hx as (i & -> & _).
    apply list_elem_of_fmap in Hin as (j & Hj & _).
    by apply frontend_id_ne_tests_id in Hj.
Qed.

(** X15. If the items of a well-formed backlog have pairwise distinct ids,
    the tasks of the plan have pairwise distinct ids, and no id is completed
    twice. *)
Theorem distinct_features_give_distinct_tasks
    (url : string) (b : list (gmap string string)) (w : World) :
  wf_backlog b ->
  NoDup (feature_ids b) ->
  exists final w' ts,
    ainvoke (create_workflow url) (initial_state b) w = (Ok final, w') /\
    tasks (plan final) = Some ts /\
    NoDup (task_id <$> ts) /\
    NoDup (completed_tasks final).
Proof.
  intros Hwf Hids. destruct (ainvoke_workflow url b Hwf w) as [w' H].
  exists (after_building b), w', (tasks_of_backlog b).
  split; [done|]. split; [done|].
  assert (NoDup (completed_of (tasks_of_backlog b))) as Hcompleted.
  { destruct (ids_for_backlog b Hwf) as (H1 & H2 & H3).
    unfold completed_of. rewrite H1, H2, H3. by apply NoDup_role_ids. }
  split; [|done].
  by rewrite <- (completed_of_Permutation _ (tasks_of_backlog_assignees b)).
Qed.

Lemma distinct_features_give_distinct_tasks_witness :
  wf_backlog example_backlog /\
  NoDup (feature_ids example_backlog) /\
  exists final w' ts,
    ainvoke (create_workflow "http://localhost:8787")
      (initial_state example_backlog)
      (fresh_world all_packages dashboard_up) = (Ok final, w') /\
    tasks (plan final) = Some ts /\
    NoDup (task_id <$> ts) /\
    NoDup (completed_tasks final).
Proof.
  assert (wf_backlog example_backlog) as Hwf
    by (repeat constructor; by eexists).
  assert (NoDup (feature_ids example_backlog)) as Hids
    by (apply (bool_decide_unpack _); vm_compute; exact I).
  split; [exact Hwf|]. split; [exact Hids|].
  exact (distinct_features_give_distinct_tasks "http://localhost:8787"
           example_backlog (fresh_world all_packages dashboard_up) Hwf Hids).
Defined.

(** ** Tasks of other assignees *)

Lemma completed_of_known ts :
  completed_of ts ≡ₚ task_id <$> filter known_assignee ts.
Proof.
  induction ts as [|t ts IH]; [done|].
  destruct (decide (known_assignee t)) as [Hknown|Hother].
  - rewrite filter_cons_True by done. rewrite fmap_cons, <- IH.
    unfold completed_of, known_assignee in *.
    rewrite !elem_of_cons, elem_of_nil in Hknown.
    destruct Hknown as [Ht|[Ht|[Ht|[]]]].
    + rewrite (tasks_for_cons_eq "backend"), !tasks_for_cons_ne
        by (rewrite ?Ht; done).
      by rewrite !fmap_cons.
    + rewrite (tasks_for_cons_eq "frontend"), !tasks_for_cons_ne
        by (rewrite ?Ht; done).
      rewrite !fmap_cons, <- app_comm_cons.
      by rewrite <- Permutation_middle.
    + rewrite (tasks_for_cons_eq "qa"), !tasks_for_cons_ne
        by (rewrite ?Ht; done).
      rewrite !fmap_cons.
      rewrite (app_assoc _ _ (_ :: _)), <- Permutation_middle.
      by rewrite <- app_assoc.
  - rewrite filter_cons_False by done. rewrite <- IH.
    unfold completed_of, known_assignee in *.
    rewrite !tasks_for_cons_ne; [done| | |];
      intros Ht; apply Hother; rewrite Ht; set_solver.
Qed.

(** X16. [building_node] completes exactly the tasks of the plan whose
    assignee is backend, frontend or qa: a task with any other assignee is
    skipped without an error, and the message counts only the others. *)
Theorem building_skips_unknown_assignees
    (url : string) (st : IterationState) (ts : list Task) (w : World) :
  tasks (plan st) = Some ts ->
  exists u w' completed,
    building_node url st w = (Ok u, w') /\
    u_completed_tasks u = Some completed /\
    completed ≡ₚ task_id <$> filter known_assignee ts /\
    u_messages u =
      Some (messages st
            ++ ["Completed "
                +:+ pretty (length (filter known_assignee ts))
                +:+ " tasks"]).
Proof.
  intros Hplan. destruct (building_node_returns url st ts Hplan w) as [w' H].
  exists (built st ts), w', (completed_of ts).
  split; [done|]. split; [done|]. split; [apply completed_of_known|].
  simpl. by rewrite (completed_of_known ts), length_fmap.
Qed.

Lemma building_skips_unknown_assignees_witness :
  let ts := [ {| task_id := "FEAT-001-docs"; task_title := "Docs";
                 task_assignee := "writer" |};
              {| task_id := "FEAT-001-tests"; task_title := "Tests";
                 task_assignee := "qa" |} ] in
  let st := {| phase := building; backlog := [];
               plan := {| tasks := Some ts; total_tasks := Some 2 |};
               completed_tasks := []; messages := [] |} in
  tasks (plan st) = Some ts /\
  exists u w',
    building_node "http://localhost:8787" st
      (fresh_world all_packages dashboard_down) = (Ok u, w') /\
    u_completed_tasks u = Some ["FEAT-001-tests"] /\
    u_messages u = Some ["Completed 1 tasks"].
Proof.
  intros ts st. split; [reflexivity|].
  destruct (building_skips_unknown_assignees "http://localhost:8787" st ts
              (fresh_world all_packages dashboard_down) eq_refl)
    as (u & w' & completed & H & _ & _ & _).
  exists u, w'. split; [exact H|].
  vm_compute in H. injection H as <- _. split; reflexivity.
Defined.
